(** * countries-app: the REST back end over its SQLite store

    A shallow embedding of [backend/db.js] (schema and seed),
    [backend/routes/users.js], [backend/routes/wishlist.js] and the countries
    proxy of [backend/server.js].

    The handlers are single parameterised SQL statements, so the embedding has
    three layers:
    - JavaScript values as the handlers see them ([jsval], [json]);
    - the store: SQL values, column affinities, the two tables with their
      constraints and the AUTOINCREMENT counters, and the statements the code
      issues against them;
    - the Express handlers, as functions from a database and a request to a
      response and a database.

    Numbers.  Integers are exact ([Z]).  What the code leaves to IEEE doubles
    inside SQLite and the sqlite3 driver (reading a text such as ['1.0'] or
    ['1e2'] as a number, writing a REAL as text, binding a JavaScript number
    that is no small integer) is the interface [Engine], of which the
    definitions and theorems below are independent; the examples are run on
    [sample_engine].  A double enters the model through the number it stands
    for, so that comparing, and telling whether a REAL is an integer, are
    exact. *)

From Stdlib Require Import ZArith List String Ascii Bool Lia.
From Stdlib Require Import Permutation Sorted DecimalString.
From Stdlib Require Import DecimalPos DecimalZ QArith Qround Qabs.
Import ListNotations.

Open Scope Z_scope.
Open Scope string_scope.

(* ================================================================== *)
(** ** Numbers *)
(* ================================================================== *)

Definition decimal (n : Z) : string := NilZero.string_of_int (Z.to_int n).

Definition in_int64 (n : Z) : bool :=
  ((- 2 ^ 63 <=? n)%Z && (n <=? 2 ^ 63 - 1)%Z)%bool.

Definition in_int32 (n : Z) : bool :=
  ((- 2 ^ 31 <=? n)%Z && (n <? 2 ^ 31)%Z)%bool.

(** [Number.isSafeInteger]: the integers every one of which is a double. *)
Definition safe_integer (n : Z) : bool := (Z.abs n <=? 2 ^ 53 - 1)%Z.

(** The integer a JavaScript number holds when it is made from the 64-bit
    integer [n]: the nearest double, ties to even.  Up to 2^53 in magnitude it
    is [n] itself. *)
Definition js_number (n : Z) : Z :=
  let a := Z.abs n in
  if (a <=? 2 ^ 53)%Z then n
  else
    let k := Z.log2 a - 52 in
    let m := Z.shiftr a k in
    let rest := a - Z.shiftl m k in
    let half := 2 ^ (k - 1) in
    let m' := if ((half <? rest)%Z || ((rest =? half)%Z && Z.odd m))%bool
              then m + 1 else m in
    Z.sgn n * Z.shiftl m' k.

(** The number a double stands for. *)
Inductive xreal : Type :=
| NegInf
| Fin (q : Q)
| PosInf.

Definition xeqb (a b : xreal) : bool :=
  match a, b with
  | NegInf, NegInf | PosInf, PosInf => true
  | Fin p, Fin q => Qeq_bool p q
  | _, _ => false
  end.

Definition xleb (a b : xreal) : bool :=
  match a, b with
  | NegInf, _ => true
  | _, PosInf => true
  | Fin p, Fin q => Qle_bool p q
  | _, _ => false
  end.

(** The integer a rational is, if it is one. *)
Definition integral (q : Q) : option Z :=
  if Qeq_bool q (inject_Z (Qfloor q)) then Some (Qfloor q) else None.

(** What SQLite and the sqlite3 driver do with doubles.
    - [real]: the doubles; [real_value x] is the number [x] stands for.
    - [text_number s]: NUMERIC affinity on the text [s]: nothing when [s] is
      not a well-formed number, the integer when it is an integer literal of
      64 bits, the double otherwise.
    - [real_text x]: TEXT affinity on the REAL [x].
    - [driver_real n]: how the driver binds a JavaScript number whose value is
      the integer [n]: as the INTEGER [n] (nothing), or as a REAL.
    Assumed of them: the decimal writing of a 64-bit integer is read as that
    integer; an integer of 32 bits is bound as an INTEGER; and a safe integer
    that is bound as a REAL is bound as the double of that value. *)
Class Engine : Type := {
  real : Type;
  real_eq_dec : forall x y : real, {x = y} + {x <> y};
  real_value : real -> xreal;
  text_number : string -> option (Z + real);
  real_text : real -> string;
  driver_real : Z -> option real;
  text_number_decimal :
    forall n, in_int64 n = true -> text_number (decimal n) = Some (inl n);
  driver_real_int32 :
    forall n, in_int32 n = true -> driver_real n = None;
  driver_real_safe :
    forall n x, safe_integer n = true -> driver_real n = Some x ->
                real_value x = Fin (inject_Z n)
}.

(* ================================================================== *)
(** ** An engine to run the handlers on *)
(* ================================================================== *)

(** The engine the examples are run on has the doubles as the rationals
    they stand for (no infinities, no subnormal numbers), rounds to 53 bits as
    IEEE does, reads numbers with the syntax of [sqlite3AtoF] and writes a
    REAL as text as SQLite's ["%!.15g"] does. *)

Definition pow10 (e : Z) : Q :=
  if (0 <=? e)%Z then inject_Z (10 ^ e) else / inject_Z (10 ^ (- e)).

Definition pow2 (e : Z) : Q :=
  if (0 <=? e)%Z then inject_Z (2 ^ e) else / inject_Z (2 ^ (- e)).

(** Round half to even. *)
Definition round_even (q : Q) : Z :=
  let f := Qfloor q in
  let rest := (q - inject_Z f)%Q in
  match (rest ?= 1 # 2)%Q with
  | Lt => f
  | Gt => f + 1
  | Eq => if Z.even f then f else f + 1
  end.

(** The double nearest to a rational. *)
Definition nearest_double (q : Q) : Q :=
  match Qnum q with
  | 0%Z => 0%Q
  | _ =>
      let a := Qabs q in
      let e0 := (Z.log2 (Qnum a) - Z.log2 (Zpos (Qden a)))%Z in
      let e := if Qle_bool (pow2 e0) a then e0 else (e0 - 1)%Z in
      let m := round_even (a * pow2 (52 - e))%Q in
      Qred ((if Qle_bool 0 q then 1 else - (1)) * inject_Z m
            * pow2 (e - 52))%Q
  end.

Definition is_space (c : ascii) : bool :=
  match nat_of_ascii c with
  | 9%nat | 10%nat | 11%nat | 12%nat | 13%nat | 32%nat => true
  | _ => false
  end.

Definition digit (c : ascii) : option Z :=
  let k := Z.of_nat (nat_of_ascii c) in
  if ((48 <=? k)%Z && (k <=? 57)%Z)%bool then Some (k - 48)%Z else None.

Fixpoint skip_spaces (s : string) : string :=
  match s with
  | String c r => if is_space c then skip_spaces r else s
  | EmptyString => s
  end.

(** The digits a text starts with: their value after those of [acc], their
    number added to [count], and the rest of the text. *)
Fixpoint digits (s : string) (acc count : Z) : Z * Z * string :=
  match s with
  | String c r =>
      match digit c with
      | Some d => digits r (10 * acc + d)%Z (count + 1)%Z
      | None => (acc, count, s)
      end
  | EmptyString => (acc, count, s)
  end.

(** An optional sign: whether it is a minus, and the rest of the text. *)
Definition sign (s : string) : bool * string :=
  match s with
  | String "-" r => (true, r)
  | String "+" r => (false, r)
  | _ => (false, s)
  end.

(** [sqlite3AtoF]: spaces, a sign, digits, a point and digits, an exponent
    (e or E, a sign, digits), spaces; with a digit before or after the point,
    and a digit in the exponent if there is one.  The result tells whether
    the text is an integer literal (no point, no exponent), and its value. *)
Definition literal (s : string) : option (bool * Q) :=
  let (negative, s1) := sign (skip_spaces s) in
  let '(whole, n_whole, s2) := digits s1 0 0 in
  let '(mantissa, n_fraction, s3, point) :=
    match s2 with
    | String "." r => let '(m, k, r') := digits r whole 0 in (m, k, r', true)
    | _ => (whole, 0%Z, s2, false)
    end in
  let '(exponent, exponent_ok, s4, has_exponent) :=
    match s3 with
    | String c r =>
        if (Ascii.eqb c "e" || Ascii.eqb c "E")%bool then
          let (minus, r1) := sign r in
          let '(e, k, r2) := digits r1 0 0 in
          ((if minus then - e else e)%Z, (0 <? k)%Z, r2, true)
        else (0%Z, true, s3, false)
    | EmptyString => (0%Z, true, s3, false)
    end in
  match skip_spaces s4 with
  | EmptyString =>
      if ((0 <? n_whole + n_fraction)%Z && exponent_ok)%bool then
        Some ((negb point && negb has_exponent)%bool,
              Qred ((if negative then - (1) else 1) * inject_Z mantissa
                    * pow10 (exponent - n_fraction))%Q)
      else None
  | _ => None
  end.

(** NUMERIC affinity on a text: the decimal writing of a 64-bit integer is
    that integer; any other text is read by [literal], an integer literal
    within 64 bits being an integer and every other number a double. *)
Definition sample_text_number (s : string) : option (Z + Q) :=
  let canonical :=
    match NilZero.int_of_string s with
    | Some d =>
        let n := Z.of_int d in
        if (String.eqb (decimal n) s && in_int64 n)%bool then Some n else None
    | None => None
    end in
  match canonical with
  | Some n => Some (inl n)
  | None =>
      match literal s with
      | Some (true, q) =>
          if in_int64 (Qfloor q) then Some (inl (Qfloor q))
          else Some (inr (nearest_double q))
      | Some (false, q) => Some (inr (nearest_double q))
      | None => None
      end
  end.

Fixpoint zeros (n : nat) : string :=
  match n with
  | O => ""
  | S k => "0" ++ zeros k
  end.

Fixpoint strip_zeros (fuel : nat) (m : Z) : Z :=
  match fuel with
  | O => m
  | S k => if (m mod 10 =? 0)%Z then strip_zeros k (m / 10)%Z else m
  end.

(** ["%!.15g"]: fifteen significant digits without trailing zeros, at least
    one digit after the point, and an exponent of at least two digits when
    the number is under 0.0001 or has more than fifteen digits before the
    point. *)
Definition sample_real_text (q : Q) : string :=
  match Qnum q with
  | 0%Z => "0.0"
  | _ =>
      let a := Qabs q in
      let e0 := (Z.of_nat (String.length (decimal (Qnum a)))
                 - Z.of_nat (String.length (decimal (Zpos (Qden a)))))%Z in
      let e1 := if Qle_bool (pow10 e0) a then e0 else (e0 - 1)%Z in
      let m1 := Qfloor (a * pow10 (14 - e1) + (1 # 2))%Q in
      let e := if (m1 =? 10 ^ 15)%Z then (e1 + 1)%Z else e1 in
      let m := if (m1 =? 10 ^ 15)%Z then (10 ^ 14)%Z else m1 in
      let ds := decimal (strip_zeros 14 m) in
      let k := String.length ds in
      let body :=
        if ((e <? -4)%Z || (15 <=? e)%Z)%bool then
          substring 0 1 ds ++ "."
          ++ (if (k <=? 1)%nat then "0" else substring 1 (k - 1) ds)
          ++ "e" ++ (if (e <? 0)%Z then "-" else "+")
          ++ (if (Z.abs e <? 10)%Z then "0" else "") ++ decimal (Z.abs e)
        else if (e <? 0)%Z then
          "0." ++ zeros (Z.to_nat (- e - 1)) ++ ds
        else
          let w := S (Z.to_nat e) in
          if (k <=? w)%nat then ds ++ zeros (w - k) ++ ".0"
          else substring 0 w ds ++ "." ++ substring w (k - w) ds in
      (if Qle_bool 0 q then "" else "-") ++ body
  end.

Definition Q_eq_dec (x y : Q) : {x = y} + {x <> y}.
Proof. decide equality; [apply Pos.eq_dec|apply Z.eq_dec]. Defined.

Definition sample_engine : Engine.
Proof.
  refine {| real := Q;
            real_eq_dec := Q_eq_dec;
            real_value := Fin;
            text_number := sample_text_number;
            real_text := sample_real_text;
            driver_real :=
              fun n => if in_int32 n then None
                       else Some (inject_Z (js_number n)) |}.
  - abstract
      (intros n R; unfold sample_text_number, decimal;
       rewrite NilZero.isi;
       [rewrite DecimalZ.of_to, String.eqb_refl, R; reflexivity
       |destruct n; simpl; try discriminate;
        intros H; inversion H as [H']; apply (Unsigned.to_uint_nonnil _ H') ..]).
  - abstract (intros n R; rewrite R; reflexivity).
  - abstract
      (intros n x S; destruct (in_int32 n); [discriminate|];
       intros H; inversion H; subst x; unfold js_number;
       unfold safe_integer in S; apply Z.leb_le in S;
       destruct (Z.leb_spec (Z.abs n) (2 ^ 53)); [reflexivity|lia]).
Defined.

Section WithEngine.

Context {E : Engine}.

(* ================================================================== *)
(** ** JavaScript values *)
(* ================================================================== *)

(** A field of a parsed JSON body, or [JUndefined] when the body has no such
    field (what destructuring [const { a, b } = req.body] yields).  A number
    is [JNum n] when the double it is has the integer value [n], and
    [JFloat x] otherwise. *)
Inductive jsval : Type :=
| JUndefined
| JNull
| JBool (b : bool)
| JNum (n : Z)
| JFloat (x : real)
| JStr (s : string).

(** What [res.json] serialises. *)
#[local] Set Warnings "-register-all".
Inductive json : Type :=
| JVal (v : jsval)
| JArr (items : list json)
| JObj (fields : list (string * json)).

(** JavaScript truthiness, the test behind [a || b]. *)
Definition truthy (v : jsval) : bool :=
  match v with
  | JUndefined | JNull => false
  | JBool b => b
  | JNum n => negb (n =? 0)%Z
  | JFloat x =>
      match real_value x with
      | Fin q => negb (Qeq_bool q 0)
      | _ => true
      end
  | JStr s => negb (String.eqb s "")
  end.

(** [a || b] *)
Definition js_or (a b : jsval) : jsval := if truthy a then a else b.

(* ================================================================== *)
(** ** SQL values and column affinity *)
(* ================================================================== *)

Inductive sqlval : Type :=
| SqlNull
| SqlInt (n : Z)
| SqlReal (x : real)
| SqlText (s : string).

Definition sqlval_eq_dec (a b : sqlval) : {a = b} + {a <> b}.
Proof.
  decide equality; [apply Z.eq_dec | apply real_eq_dec | apply string_dec].
Defined.

(** Equality of stored values as such; on two texts it is SQLite's [=]. *)
Definition sql_eqb (a b : sqlval) : bool :=
  if sqlval_eq_dec a b then true else false.

Definition is_null (v : sqlval) : bool :=
  match v with SqlNull => true | _ => false end.

(** The number an INTEGER or a REAL stands for. *)
Definition number_of (v : sqlval) : option xreal :=
  match v with
  | SqlInt n => Some (Fin (inject_Z n))
  | SqlReal x => Some (real_value x)
  | _ => None
  end.

(** SQLite's [=] on two values that are not NULL, as in a WHERE clause and
    in a UNIQUE index: numbers by the number they stand for, whether INTEGER
    or REAL, texts byte by byte, and a number never equals a text. *)
Definition sql_equal (a b : sqlval) : bool :=
  match a, b with
  | SqlText s, SqlText t => String.eqb s t
  | _, _ =>
      match number_of a, number_of b with
      | Some x, Some y => xeqb x y
      | _, _ => false
      end
  end.

(** The integer a REAL is, if it is one. *)
Definition real_integer (x : real) : option Z :=
  match real_value x with
  | Fin q => integral q
  | _ => None
  end.

(** How the driver binds a JavaScript number of integer value [n]. *)
Definition bind_number (n : Z) : sqlval :=
  match driver_real n with
  | None => SqlInt n
  | Some x => SqlReal x
  end.

(** How the sqlite3 driver binds a JavaScript value to a [?] placeholder:
    strings as TEXT, booleans as INTEGER, numbers as INTEGER or REAL, [null]
    as NULL; an [undefined] parameter is left unbound, which SQLite reads as
    NULL. *)
Definition bind (v : jsval) : sqlval :=
  match v with
  | JUndefined | JNull => SqlNull
  | JBool b => SqlInt (if b then 1 else 0)
  | JNum n => bind_number n
  | JFloat x =>
      match real_integer x with
      | Some n => bind_number n
      | None => SqlReal x
      end
  | JStr s => SqlText s
  end.

(** A column value as the driver hands it back in a row object; an INTEGER
    comes back as a JavaScript number. *)
Definition of_sql (v : sqlval) : jsval :=
  match v with
  | SqlNull => JNull
  | SqlInt n => JNum (js_number n)
  | SqlReal x =>
      match real_integer x with
      | Some n => JNum n
      | None => JFloat x
      end
  | SqlText s => JStr s
  end.

(** A REAL that is an integer strictly inside the 64-bit range becomes that
    INTEGER. *)
Definition real_to_integer (x : real) : sqlval :=
  match real_integer x with
  | Some n =>
      if ((- 2 ^ 63 <? n)%Z && (n <? 2 ^ 63 - 1)%Z)%bool then SqlInt n
      else SqlReal x
  | None => SqlReal x
  end.

(** INTEGER (and NUMERIC) affinity: a TEXT that is a well-formed number
    becomes that number, a REAL that is an integer becomes an INTEGER,
    everything else is kept. *)
Definition integer_affinity (v : sqlval) : sqlval :=
  match v with
  | SqlText s =>
      match text_number s with
      | Some (inl n) => SqlInt n
      | Some (inr x) => real_to_integer x
      | None => v
      end
  | SqlReal x => real_to_integer x
  | _ => v
  end.

(** TEXT affinity: a number is stored as its text. *)
Definition text_affinity (v : sqlval) : sqlval :=
  match v with
  | SqlInt n => SqlText (decimal n)
  | SqlReal x => SqlText (real_text x)
  | _ => v
  end.

(** The order of [ORDER BY] and of comparisons across storage classes: NULL
    first, then numbers, then text compared byte-wise. *)
Definition sql_leb (a b : sqlval) : bool :=
  match a, b with
  | SqlNull, _ => true
  | _, SqlNull => false
  | SqlText x, SqlText y => String.leb x y
  | SqlText _, _ => false
  | _, SqlText _ => true
  | _, _ =>
      match number_of a, number_of b with
      | Some x, Some y => xleb x y
      | _, _ => false
      end
  end.

(* ================================================================== *)
(** ** The schema of db.js *)
(* ================================================================== *)

(** [users]: id INTEGER PRIMARY KEY AUTOINCREMENT, username TEXT UNIQUE NOT
    NULL, email TEXT UNIQUE NOT NULL, created_at DATETIME DEFAULT
    CURRENT_TIMESTAMP. *)
Record user_row : Type := mk_user {
  u_id : Z;
  u_username : sqlval;
  u_email : sqlval;
  u_created_at : sqlval
}.

(** [wishlist]: id INTEGER PRIMARY KEY AUTOINCREMENT, user_id INTEGER NOT
    NULL, country_code TEXT NOT NULL, country_name TEXT NOT NULL, rating
    INTEGER DEFAULT 0, notes TEXT, added_date DATETIME DEFAULT
    CURRENT_TIMESTAMP, UNIQUE(user_id, country_code).  The FOREIGN KEY clause
    is declared but the code never turns foreign-key enforcement on, so it
    constrains nothing. *)
Record wishlist_row : Type := mk_item {
  w_id : Z;
  w_user_id : sqlval;
  w_country_code : sqlval;
  w_country_name : sqlval;
  w_rating : sqlval;
  w_notes : sqlval;
  w_added_date : sqlval
}.

(** The database file.  A table is [None] until it has been created; rows are
    kept in rowid order.  [seq_users] and [seq_wishlist] are the
    [sqlite_sequence] entries that AUTOINCREMENT maintains. *)
Record database : Type := mk_db {
  users : option (list user_row);
  wishlist : option (list wishlist_row);
  seq_users : Z;
  seq_wishlist : Z
}.

Definition fresh_file : database :=
  {| users := None; wishlist := None; seq_users := 0; seq_wishlist := 0 |}.

Inductive sql_error : Type :=
| NoSuchTable (table : string)
| NotNullFailed (column : string)
| UniqueFailed (columns : string).

(** [err.message] as the driver builds it. *)
Definition message (e : sql_error) : string :=
  match e with
  | NoSuchTable t => "SQLITE_ERROR: no such table: " ++ t
  | NotNullFailed c => "SQLITE_CONSTRAINT: NOT NULL constraint failed: " ++ c
  | UniqueFailed c => "SQLITE_CONSTRAINT: UNIQUE constraint failed: " ++ c
  end.

Definition max_rowid {A} (id : A -> Z) (rows : list A) : Z :=
  fold_right (fun r m => Z.max (id r) m) 0 rows.

(** The rowid AUTOINCREMENT assigns: one more than the largest rowid the
    table holds or has ever held. *)
Definition next_rowid {A} (id : A -> Z) (rows : list A) (seq : Z) : Z :=
  Z.max (max_rowid id rows) seq + 1.

Definition set_users (db : database) (rows : list user_row) (seq : Z) :=
  {| users := Some rows; wishlist := wishlist db;
     seq_users := seq; seq_wishlist := seq_wishlist db |}.

Definition set_wishlist (db : database) (rows : list wishlist_row) (seq : Z) :=
  {| users := users db; wishlist := Some rows;
     seq_users := seq_users db; seq_wishlist := seq |}.

(* ================================================================== *)
(** ** db.js: initialisation *)
(* ================================================================== *)

(** [CREATE TABLE IF NOT EXISTS users (...)] *)
Definition create_users_table (db : database) : database :=
  match users db with
  | Some _ => db
  | None => set_users db [] (seq_users db)
  end.

(** [CREATE TABLE IF NOT EXISTS wishlist (...)] *)
Definition create_wishlist_table (db : database) : database :=
  match wishlist db with
  | Some _ => db
  | None => set_wishlist db [] (seq_wishlist db)
  end.

Definition username_taken (rows : list user_row) (v : sqlval) : bool :=
  existsb (fun r => sql_eqb (u_username r) v) rows.

Definition email_taken (rows : list user_row) (v : sqlval) : bool :=
  existsb (fun r => sql_eqb (u_email r) v) rows.

Definition demo_username : sqlval := SqlText "demo".
Definition demo_email : sqlval := SqlText "demo@example.com".

(** [INSERT OR IGNORE INTO users (username, email) VALUES ('demo',
    'demo@example.com')], run without a callback.  [now] is the text of
    CURRENT_TIMESTAMP.  On a UNIQUE conflict the row is skipped; the rowid has
    been drawn by then, so the AUTOINCREMENT counter advances either way. *)
Definition insert_demo_user (db : database) (now : string) : database :=
  match users db with
  | None => db
  | Some rows =>
      let id := next_rowid u_id rows (seq_users db) in
      if (username_taken rows demo_username || email_taken rows demo_email)%bool
      then set_users db rows id
      else set_users db
             (rows ++ [mk_user id demo_username demo_email (SqlText now)])%list id
  end.

(** The body of [db.serialize(() => { ... })]. *)
Definition initialize (db : database) (now : string) : database :=
  insert_demo_user (create_wishlist_table (create_users_table db)) now.

(* ================================================================== *)
(** ** The statements of the route handlers *)
(* ================================================================== *)

(** [user_id = ?] against the INTEGER column: the bound text takes numeric
    affinity before the comparison, and numbers compare by value. *)
Definition user_id_is (userId : string) (r : wishlist_row) : bool :=
  sql_equal (w_user_id r) (integer_affinity (SqlText userId)).

(** [user_id = ? AND country_code = ?] *)
Definition item_is (userId countryCode : string) (r : wishlist_row) : bool :=
  (user_id_is userId r && sql_eqb (w_country_code r) (SqlText countryCode))%bool.

(** [SELECT * FROM users WHERE id = ?] through [db.get]: the first row, or
    [undefined]. *)
Definition select_user (db : database) (id : string)
  : sql_error + option user_row :=
  match users db with
  | None => inl (NoSuchTable "users")
  | Some rows =>
      inr (find (fun r => sql_equal (SqlInt (u_id r))
                            (integer_affinity (SqlText id))) rows)
  end.

(** [INSERT INTO users (username, email) VALUES (?, ?)]; the result carries
    [this.lastID].  The NOT NULL columns are checked in their order, then the
    UNIQUE indexes, the one of email before the one of username. *)
Definition insert_user (db : database) (username email : jsval) (now : string)
  : sql_error + Z * database :=
  match users db with
  | None => inl (NoSuchTable "users")
  | Some rows =>
      let un := text_affinity (bind username) in
      let em := text_affinity (bind email) in
      if is_null un then inl (NotNullFailed "users.username")
      else if is_null em then inl (NotNullFailed "users.email")
      else if email_taken rows em then inl (UniqueFailed "users.email")
      else if username_taken rows un then inl (UniqueFailed "users.username")
      else
        let id := next_rowid u_id rows (seq_users db) in
        inr (id, set_users db (rows ++ [mk_user id un em (SqlText now)])%list id)
  end.

Fixpoint insert_desc (r : wishlist_row) (l : list wishlist_row)
  : list wishlist_row :=
  match l with
  | [] => [r]
  | x :: l' =>
      if sql_leb (w_added_date x) (w_added_date r) then r :: l
      else x :: insert_desc r l'
  end.

(** [ORDER BY added_date DESC] *)
Fixpoint order_by_added_date_desc (l : list wishlist_row) : list wishlist_row :=
  match l with
  | [] => []
  | r :: l' => insert_desc r (order_by_added_date_desc l')
  end.

(** [SELECT * FROM wishlist WHERE user_id = ? ORDER BY added_date DESC]
    through [db.all]. *)
Definition select_wishlist (db : database) (userId : string)
  : sql_error + list wishlist_row :=
  match wishlist db with
  | None => inl (NoSuchTable "wishlist")
  | Some rows => inr (order_by_added_date_desc (filter (user_id_is userId) rows))
  end.

Definition key_taken (rows : list wishlist_row) (uid cc : sqlval) : bool :=
  existsb (fun r => (sql_equal (w_user_id r) uid
                     && sql_equal (w_country_code r) cc)%bool) rows.

(** [INSERT INTO wishlist (user_id, country_code, country_name, rating,
    notes) VALUES (?, ?, ?, ?, ?)]; the result carries [this.lastID]. *)
Definition insert_wishlist (db : database) (userId : string)
    (country_code country_name rating notes : jsval) (now : string)
  : sql_error + Z * database :=
  match wishlist db with
  | None => inl (NoSuchTable "wishlist")
  | Some rows =>
      let uid := integer_affinity (SqlText userId) in
      let cc := text_affinity (bind country_code) in
      let cn := text_affinity (bind country_name) in
      if is_null uid then inl (NotNullFailed "wishlist.user_id")
      else if is_null cc then inl (NotNullFailed "wishlist.country_code")
      else if is_null cn then inl (NotNullFailed "wishlist.country_name")
      else if key_taken rows uid cc
      then inl (UniqueFailed "wishlist.user_id, wishlist.country_code")
      else
        let id := next_rowid w_id rows (seq_wishlist db) in
        inr (id,
             set_wishlist db
               (rows ++ [mk_item id uid cc cn (integer_affinity (bind rating))
                           (text_affinity (bind notes)) (SqlText now)])%list id)
  end.

Definition set_rating_notes (rating notes : sqlval) (r : wishlist_row)
  : wishlist_row :=
  {| w_id := w_id r; w_user_id := w_user_id r;
     w_country_code := w_country_code r; w_country_name := w_country_name r;
     w_rating := rating; w_notes := notes; w_added_date := w_added_date r |}.

Definition count_rows {A} (p : A -> bool) (rows : list A) : Z :=
  Z.of_nat (List.length (filter p rows)).

(** [UPDATE wishlist SET rating = ?, notes = ? WHERE user_id = ? AND
    country_code = ?]; the result carries [this.changes]. *)
Definition update_wishlist (db : database) (rating notes : jsval)
    (userId countryCode : string) : sql_error + Z * database :=
  match wishlist db with
  | None => inl (NoSuchTable "wishlist")
  | Some rows =>
      let rt := integer_affinity (bind rating) in
      let nt := text_affinity (bind notes) in
      inr (count_rows (item_is userId countryCode) rows,
           set_wishlist db
             (map (fun r => if item_is userId countryCode r
                            then set_rating_notes rt nt r else r) rows)
             (seq_wishlist db))
  end.

(** [DELETE FROM wishlist WHERE user_id = ? AND country_code = ?]; the result
    carries [this.changes]. *)
Definition delete_wishlist (db : database) (userId countryCode : string)
  : sql_error + Z * database :=
  match wishlist db with
  | None => inl (NoSuchTable "wishlist")
  | Some rows =>
      inr (count_rows (item_is userId countryCode) rows,
           set_wishlist db
             (filter (fun r => negb (item_is userId countryCode r)) rows)
             (seq_wishlist db))
  end.

(* ================================================================== *)
(** ** Express requests and responses *)
(* ================================================================== *)

Record response : Type := mk_response { status : Z; body : json }.

(** [res.json(b)] *)
Definition res_json (b : json) : response := {| status := 200; body := b |}.

(** [res.status(code).json(b)] *)
Definition res_status_json (code : Z) (b : json) : response :=
  {| status := code; body := b |}.

(** [{ error: msg }] *)
Definition error_body (msg : string) : json :=
  JObj [("error", JVal (JStr msg))].

(** [req.body] after [bodyParser.json()]: the fields the handlers
    destructure; a field the body does not have is [JUndefined]. *)
Record req_body : Type := mk_body {
  username : jsval;
  email : jsval;
  country_code : jsval;
  country_name : jsval;
  rating : jsval;
  notes : jsval
}.

(** A row as [db.get] and [db.all] hand it to [res.json]: the rowid and the
    INTEGER columns come as JavaScript numbers. *)
Definition user_json (r : user_row) : json :=
  JObj [("id", JVal (JNum (js_number (u_id r))));
        ("username", JVal (of_sql (u_username r)));
        ("email", JVal (of_sql (u_email r)));
        ("created_at", JVal (of_sql (u_created_at r)))].

Definition item_json (r : wishlist_row) : json :=
  JObj [("id", JVal (JNum (js_number (w_id r))));
        ("user_id", JVal (of_sql (w_user_id r)));
        ("country_code", JVal (of_sql (w_country_code r)));
        ("country_name", JVal (of_sql (w_country_name r)));
        ("rating", JVal (of_sql (w_rating r)));
        ("notes", JVal (of_sql (w_notes r)));
        ("added_date", JVal (of_sql (w_added_date r)))].

(* ------------------------------------------------------------------ *)
(** *** routes/users.js *)

(** [router.get('/:id')] *)
Definition users_get (db : database) (id : string) : response * database :=
  match select_user db id with
  | inl err => (res_status_json 500 (error_body (message err)), db)
  | inr row =>
      (res_json (match row with
                 | Some r => user_json r
                 | None => JObj []
                 end), db)
  end.

(** [router.post('/')]; [this.lastID] is the rowid the insert drew. *)
Definition users_post (db : database) (b : req_body) (now : string)
  : response * database :=
  match insert_user db (username b) (email b) now with
  | inl err => (res_status_json 400 (error_body (message err)), db)
  | inr (id, db') =>
      (res_json (JObj [("id", JVal (JNum id));
                       ("username", JVal (username b));
                       ("email", JVal (email b))]), db')
  end.

(* ------------------------------------------------------------------ *)
(** *** routes/wishlist.js *)

(** [router.get('/:userId')] *)
Definition wishlist_get (db : database) (userId : string)
  : response * database :=
  match select_wishlist db userId with
  | inl err => (res_status_json 500 (error_body (message err)), db)
  | inr rows => (res_json (JArr (map item_json rows)), db)
  end.

(** [router.post('/:userId')] *)
Definition wishlist_post (db : database) (userId : string) (b : req_body)
    (now : string) : response * database :=
  match insert_wishlist db userId (country_code b) (country_name b)
          (js_or (rating b) (JNum 0)) (js_or (notes b) (JStr "")) now with
  | inl err => (res_status_json 400 (error_body (message err)), db)
  | inr (id, db') =>
      (res_json (JObj [("id", JVal (JNum id));
                       ("user_id", JVal (JStr userId));
                       ("country_code", JVal (country_code b));
                       ("country_name", JVal (country_name b));
                       ("rating", JVal (js_or (rating b) (JNum 0)));
                       ("notes", JVal (js_or (notes b) (JStr "")))]), db')
  end.

(** [router.put('/:userId/:countryCode')] *)
Definition wishlist_put (db : database) (userId countryCode : string)
    (b : req_body) : response * database :=
  match update_wishlist db (rating b) (notes b) userId countryCode with
  | inl err => (res_status_json 400 (error_body (message err)), db)
  | inr (n, db') => (res_json (JObj [("updated", JVal (JNum n))]), db')
  end.

(** [router.delete('/:userId/:countryCode')] *)
Definition wishlist_delete (db : database) (userId countryCode : string)
  : response * database :=
  match delete_wishlist db userId countryCode with
  | inl err => (res_status_json 400 (error_body (message err)), db)
  | inr (n, db') => (res_json (JObj [("deleted", JVal (JNum n))]), db')
  end.

(* ------------------------------------------------------------------ *)
(** *** server.js: the countries proxy *)

(** How [await axios.get(url)] ends: it resolves with [response.data], or it
    throws (network failure, or a status outside 2xx). *)
Inductive axios_outcome : Type :=
| Resolved (data : json)
| Thrown.

Section Countries.

(** The external country source, as seen through [axios.get]. *)
Variable axios_get : string -> axios_outcome.

(** [app.get('/api/countries')] *)
Definition countries_all : response :=
  match axios_get "https://restcountries.com/v3.1/all" with
  | Resolved data => res_json data
  | Thrown => res_status_json 500 (error_body "Failed to fetch countries")
  end.

(** [app.get('/api/countries/search/:name')] *)
Definition countries_search (name : string) : response :=
  match axios_get ("https://restcountries.com/v3.1/name/" ++ name) with
  | Resolved data => res_json data
  | Thrown => res_status_json 404 (error_body "Country not found")
  end.

(** [app.get('/api/countries/region/:region')] *)
Definition countries_region (region : string) : response :=
  match axios_get ("https://restcountries.com/v3.1/region/" ++ region) with
  | Resolved data => res_json data
  | Thrown => res_status_json 404 (error_body "Region not found")
  end.

End Countries.

(* ------------------------------------------------------------------ *)
(** *** The life of the database file *)

Inductive request : Type :=
| GetUser (id : string)
| PostUser (b : req_body)
| GetWishlist (userId : string)
| PostWishlist (userId : string) (b : req_body)
| PutWishlist (userId countryCode : string) (b : req_body)
| DeleteWishlist (userId countryCode : string).

(** Dispatch of [app.use('/api/users', ...)] and [app.use('/api/wishlist',
    ...)]; [now] is the clock reading CURRENT_TIMESTAMP would give. *)
Definition handle (db : database) (now : string) (q : request)
  : response * database :=
  match q with
  | GetUser id => users_get db id
  | PostUser b => users_post db b now
  | GetWishlist userId => wishlist_get db userId
  | PostWishlist userId b => wishlist_post db userId b now
  | PutWishlist userId countryCode b => wishlist_put db userId countryCode b
  | DeleteWishlist userId countryCode => wishlist_delete db userId countryCode
  end.

(** What happens to the file: the server starts (db.js runs), or a request is
    served. *)
Inductive event : Type :=
| Startup (now : string)
| Served (now : string) (q : request).

Definition step (db : database) (e : event) : database :=
  match e with
  | Startup now => initialize db now
  | Served now q => snd (handle db now q)
  end.

Definition run (db : database) (es : list event) : database :=
  fold_left step es db.

(* ================================================================== *)
(* ================================================================== *)
(** ** Predicates and observations used in the statements *)
(* ================================================================== *)

(** [a] comes no later than [b] in a result ordered by added date,
    descending. *)
Definition added_date_ge (a b : wishlist_row) : Prop :=
  sql_leb (w_added_date b) (w_added_date a) = true.

(** Two rows are entries of the same user for the same country: their
    user_id and their country_code are equal as UNIQUE(user_id, country_code)
    compares them. *)
Definition same_entry (r1 r2 : wishlist_row) : bool :=
  (sql_equal (w_user_id r1) (w_user_id r2)
   && sql_equal (w_country_code r1) (w_country_code r2))%bool.

(** At most one wishlist entry per user per country: no two rows of the
    table are entries of the same user for the same country. *)
Definition unique_keys (rows : list wishlist_row) : Prop :=
  ForallOrdPairs (fun r1 r2 => same_entry r1 r2 = false) rows.

(** The uniqueness constraints of the schema, on the tables that exist. *)
Record constraints_hold (db : database) : Prop := {
  users_pk : forall rows, users db = Some rows -> NoDup (map u_id rows);
  users_username_unique :
    forall rows, users db = Some rows -> NoDup (map u_username rows);
  wishlist_key_unique :
    forall rows, wishlist db = Some rows -> unique_keys rows
}.

Definition is_demo (r : user_row) : bool :=
  (sql_eqb (u_username r) demo_username && sql_eqb (u_email r) demo_email)%bool.

(** How many rows of [users] are the seed user. *)
Definition demo_users (db : database) : Z :=
  match users db with
  | Some rows => count_rows is_demo rows
  | None => 0
  end.

(** Neither table has been created. *)
Definition pristine (db : database) : Prop :=
  users db = None /\ wishlist db = None.

(** Both tables exist and the seed user is in [users]. *)
Definition seeded (db : database) : Prop :=
  exists rows,
    users db = Some rows /\ wishlist db <> None
    /\ existsb is_demo rows = true.

(** The requests that write: POST /api/users and POST, PUT, DELETE on
    /api/wishlist. *)
Definition is_write (q : request) : bool :=
  match q with
  | GetUser _ | GetWishlist _ => false
  | _ => true
  end.

Definition failure {A} (r : sql_error + A) : option sql_error :=
  match r with inl e => Some e | inr _ => None end.

(** The error, if any, the database reports for the statement of request
    [q]. *)
Definition reported_error (db : database) (now : string) (q : request)
  : option sql_error :=
  match q with
  | GetUser id => failure (select_user db id)
  | PostUser b => failure (insert_user db (username b) (email b) now)
  | GetWishlist userId => failure (select_wishlist db userId)
  | PostWishlist userId b =>
      failure (insert_wishlist db userId (country_code b) (country_name b)
                 (js_or (rating b) (JNum 0)) (js_or (notes b) (JStr "")) now)
  | PutWishlist userId countryCode b =>
      failure (update_wishlist db (rating b) (notes b) userId countryCode)
  | DeleteWishlist userId countryCode =>
      failure (delete_wishlist db userId countryCode)
  end.

(** The row with the largest rowid, which is the one an insert created. *)
Definition newest_item (db : database) : option wishlist_row :=
  match wishlist db with
  | Some rows => last (map Some rows) None
  | None => None
  end.

(** Property [name] of a JSON object. *)
Definition property (name : string) (j : json) : option json :=
  match j with
  | JObj fields =>
      option_map snd (find (fun f => String.eqb (fst f) name) fields)
  | _ => None
  end.

(** A body field is supplied when the body has it. *)
Definition supplied (v : jsval) : bool :=
  match v with JUndefined => false | _ => true end.

(* ------------------------------------------------------------------ *)
(** *** Sample data *)

Definition t0 : string := "2024-05-01 09:00:00".
Definition t1 : string := "2024-05-01 09:05:00".
Definition t2 : string := "2024-05-02 18:30:00".

Definition no_body : req_body :=
  {| username := JUndefined; email := JUndefined;
     country_code := JUndefined; country_name := JUndefined;
     rating := JUndefined; notes := JUndefined |}.

(** [{ country_code: "FR", country_name: "France" }] *)
Definition france : req_body :=
  {| username := JUndefined; email := JUndefined;
     country_code := JStr "FR"; country_name := JStr "France";
     rating := JUndefined; notes := JUndefined |}.

(** [{ country_code: "JP", country_name: "Japan", rating: 5, notes: "sakura" }] *)
Definition japan : req_body :=
  {| username := JUndefined; email := JUndefined;
     country_code := JStr "JP"; country_name := JStr "Japan";
     rating := JNum 5; notes := JStr "sakura" |}.

(** [{ rating: 4, notes: "spring" }] *)
Definition four_stars : req_body :=
  {| username := JUndefined; email := JUndefined;
     country_code := JUndefined; country_name := JUndefined;
     rating := JNum 4; notes := JStr "spring" |}.

(** [{ username: "demo", email: "demo@example.com" }] *)
Definition demo_again : req_body :=
  {| username := JStr "demo"; email := JStr "demo@example.com";
     country_code := JUndefined; country_name := JUndefined;
     rating := JUndefined; notes := JUndefined |}.

(** [{ username: "ana", email: "ana@example.com" }] *)
Definition ana : req_body :=
  {| username := JStr "ana"; email := JStr "ana@example.com";
     country_code := JUndefined; country_name := JUndefined;
     rating := JUndefined; notes := JUndefined |}.

(** [{ rating: "1e2", notes: "a round number" }] *)
Definition hundred : req_body :=
  {| username := JUndefined; email := JUndefined;
     country_code := JUndefined; country_name := JUndefined;
     rating := JStr "1e2"; notes := JStr "a round number" |}.

(** [{ username: 1e20, email: "big@example.com" }] *)
Definition big : req_body :=
  {| username := JNum (10 ^ 20); email := JStr "big@example.com";
     country_code := JUndefined; country_name := JUndefined;
     rating := JUndefined; notes := JUndefined |}.

(** [{ country_code: 1e20, country_name: "Far away" }] *)
Definition far_away : req_body :=
  {| username := JUndefined; email := JUndefined;
     country_code := JNum (10 ^ 20); country_name := JStr "Far away";
     rating := JUndefined; notes := JUndefined |}.

Definition france_item : wishlist_row :=
  mk_item 1 (SqlInt 1) (SqlText "FR") (SqlText "France") (SqlInt 0)
    (SqlText "") (SqlText t1).

Definition japan_item : wishlist_row :=
  mk_item 2 (SqlInt 1) (SqlText "JP") (SqlText "Japan") (SqlInt 5)
    (SqlText "sakura") (SqlText t2).

(** What the POST of [france] under user 1 answers on [started], and the
    POST of [japan] after it. *)
Definition france_created : response :=
  res_json (JObj [("id", JVal (JNum 1)); ("user_id", JVal (JStr "1"));
                  ("country_code", JVal (JStr "FR"));
                  ("country_name", JVal (JStr "France"));
                  ("rating", JVal (JNum 0)); ("notes", JVal (JStr ""))]).

Definition japan_created : response :=
  res_json (JObj [("id", JVal (JNum 2)); ("user_id", JVal (JStr "1"));
                  ("country_code", JVal (JStr "JP"));
                  ("country_name", JVal (JStr "Japan"));
                  ("rating", JVal (JNum 5)); ("notes", JVal (JStr "sakura"))]).

Definition ana_row : user_row :=
  mk_user 2 (SqlText "ana") (SqlText "ana@example.com") (SqlText t1).

(** What the POST of [ana] answers on [started]. *)
Definition ana_created : response :=
  res_json (JObj [("id", JVal (JNum 2)); ("username", JVal (JStr "ana"));
                  ("email", JVal (JStr "ana@example.com"))]).

Definition demo_row : user_row :=
  mk_user 1 demo_username demo_email (SqlText t0).

(** A stand-in for the external source: it knows Peru and nothing else. *)
Definition peru_data : json :=
  JObj [("cca2", JVal (JStr "PE")); ("region", JVal (JStr "Americas"))].

Definition sample_source (url : string) : axios_outcome :=
  if String.eqb url "https://restcountries.com/v3.1/all" then
    Resolved (JArr [peru_data])
  else if String.eqb url "https://restcountries.com/v3.1/name/peru" then
    Resolved (JArr [peru_data])
  else Thrown.

(** The file after the first start of the server. *)
Definition started : database := initialize fresh_file t0.

(** ... and after the demo user has saved France and then Japan. *)
Definition with_two_items : database :=
  run started [Served t1 (PostWishlist "1" france);
               Served t2 (PostWishlist "1" japan)].

(* ------------------------------------------------------------------ *)
(** *** Further observations *)

(** The [id] property of a response body, when it is a number. *)
Definition created_id (resp : response) : option Z :=
  match property "id" (body resp) with
  | Some (JVal (JNum n)) => Some n
  | _ => None
  end.

(** The constraints of the schema that [constraints_hold] does not list:
    UNIQUE(email), the primary key of wishlist, and the NOT NULL columns. *)
Record schema_holds (db : database) : Prop := {
  users_email_unique :
    forall rows, users db = Some rows -> NoDup (map u_email rows);
  users_not_null :
    forall rows r, users db = Some rows -> In r rows ->
                   is_null (u_username r) = false /\ is_null (u_email r) = false;
  wishlist_pk :
    forall rows, wishlist db = Some rows -> NoDup (map w_id rows);
  wishlist_not_null :
    forall rows r, wishlist db = Some rows -> In r rows ->
                   is_null (w_user_id r) = false
                   /\ is_null (w_country_code r) = false
                   /\ is_null (w_country_name r) = false
}.

(** [country_code = ?] of the DELETE and UPDATE statements. *)
Definition country_is (countryCode : string) (r : wishlist_row) : bool :=
  sql_eqb (w_country_code r) (SqlText countryCode).

(** The rows [db.all] hands to [router.get('/:userId')], or none on error. *)
Definition listed (db : database) (userId : string) : list wishlist_row :=
  match select_wishlist db userId with
  | inr rows => rows
  | inl _ => []
  end.

(** The user whose wishlist a request writes to: the [:userId] of a POST,
    PUT or DELETE on /api/wishlist. *)
Definition written_user (q : request) : option string :=
  match q with
  | PostWishlist userId _ => Some userId
  | PutWishlist userId _ _ => Some userId
  | DeleteWishlist userId _ => Some userId
  | _ => None
  end.

(* ================================================================== *)
(** * Properties *)
(* ================================================================== *)

(** ** Comparing values *)

Lemma xeqb_sym (a b : xreal) : xeqb a b = xeqb b a.
Proof. destruct a, b; simpl; try reflexivity. apply Qeq_bool_comm. Qed.

Lemma xeqb_trans (a b c : xreal) :
  xeqb a b = true -> xeqb b c = true -> xeqb a c = true.
Proof.
  destruct a, b, c; simpl; try congruence. apply Qeq_bool_trans.
Qed.

Lemma xleb_trans (a b c : xreal) :
  xleb a b = true -> xleb b c = true -> xleb a c = true.
Proof.
  destruct a, b, c; simpl; try congruence.
  rewrite !Qle_bool_iff. apply Qle_trans.
Qed.

Lemma xleb_total (a b : xreal) : xleb a b = false -> xleb b a = true.
Proof.
  destruct a, b; simpl; try congruence.
  intros H. apply Qle_bool_iff.
  destruct (Qlt_le_dec q q0) as [L|L]; [|exact L].
  apply Qlt_le_weak, Qle_bool_iff in L. congruence.
Qed.

Lemma xeqb_integers (a b : Z) :
  xeqb (Fin (inject_Z a)) (Fin (inject_Z b)) = (a =? b)%Z.
Proof.
  simpl. destruct (Z.eqb_spec a b) as [->|N].
  - apply Qeq_bool_refl.
  - destruct (Qeq_bool (inject_Z a) (inject_Z b)) eqn:H; [|reflexivity].
    apply Qeq_bool_eq in H. unfold Qeq in H. simpl in H. lia.
Qed.

Lemma sql_equal_sym (a b : sqlval) : sql_equal a b = sql_equal b a.
Proof.
  destruct a, b; cbn [sql_equal number_of]; try reflexivity;
    try apply xeqb_sym.
  apply String.eqb_sym.
Qed.

Lemma sql_equal_trans (a b c : sqlval) :
  sql_equal a b = true -> sql_equal b c = true -> sql_equal a c = true.
Proof.
  destruct a, b, c; cbn [sql_equal number_of]; try congruence;
    try apply xeqb_trans.
  rewrite !String.eqb_eq. congruence.
Qed.

(** Two values equal to a third are equal. *)
Lemma sql_equal_both (a b c : sqlval) :
  sql_equal a c = true -> sql_equal b c = true -> sql_equal a b = true.
Proof.
  intros H1 H2. rewrite (sql_equal_sym b c) in H2.
  exact (sql_equal_trans _ _ _ H1 H2).
Qed.

Lemma sql_equal_integers (a b : Z) :
  sql_equal (SqlInt a) (SqlInt b) = (a =? b)%Z.
Proof. apply xeqb_integers. Qed.

Lemma sql_eqb_eq (a b : sqlval) : sql_eqb a b = true <-> a = b.
Proof.
  unfold sql_eqb. destruct (sqlval_eq_dec a b); split; congruence.
Qed.

Lemma sql_eqb_refl (a : sqlval) : sql_eqb a a = true.
Proof. apply sql_eqb_eq. reflexivity. Qed.

(** Against a text, [=] is equality of the stored values. *)
Lemma sql_equal_text (v : sqlval) (s : string) :
  sql_equal v (SqlText s) = sql_eqb v (SqlText s).
Proof.
  destruct (sql_eqb v (SqlText s)) eqn:H.
  - apply sql_eqb_eq in H. subst v. simpl. apply String.eqb_refl.
  - destruct v; try reflexivity. simpl.
    destruct (String.eqb_spec s0 s) as [->|N]; [|reflexivity].
    rewrite sql_eqb_refl in H. discriminate H.
Qed.

(** ** The order of [ORDER BY] *)

Lemma string_compare_le_trans (s1 : string) :
  forall s2 s3,
    String.compare s1 s2 <> Gt -> String.compare s2 s3 <> Gt ->
    String.compare s1 s3 <> Gt.
Proof.
  induction s1 as [|a s1 IH]; intros [|b s2] [|c s3]; simpl; try congruence.
  unfold Ascii.compare.
  destruct (N.compare_spec (N_of_ascii a) (N_of_ascii b));
    destruct (N.compare_spec (N_of_ascii b) (N_of_ascii c));
    destruct (N.compare_spec (N_of_ascii a) (N_of_ascii c));
    try congruence; try lia.
  apply IH.
Qed.

Lemma string_leb_trans (s1 s2 s3 : string) :
  String.leb s1 s2 = true -> String.leb s2 s3 = true -> String.leb s1 s3 = true.
Proof.
  unfold String.leb. intros H12 H23.
  pose proof (string_compare_le_trans s1 s2 s3) as T.
  destruct (String.compare s1 s2); destruct (String.compare s2 s3);
    destruct (String.compare s1 s3); try discriminate; try reflexivity;
    exfalso; apply T; congruence.
Qed.

Lemma sql_leb_trans (a b c : sqlval) :
  sql_leb a b = true -> sql_leb b c = true -> sql_leb a c = true.
Proof.
  destruct a, b, c; cbn [sql_leb number_of]; try congruence;
    try apply xleb_trans; apply string_leb_trans.
Qed.

Lemma sql_leb_total (a b : sqlval) : sql_leb a b = false -> sql_leb b a = true.
Proof.
  destruct a, b; cbn [sql_leb number_of]; try congruence;
    try apply xleb_total.
  intros H. destruct (String.leb_total s s0); congruence.
Qed.

Lemma insert_desc_perm (r : wishlist_row) (l : list wishlist_row) :
  Permutation (insert_desc r l) (r :: l).
Proof.
  induction l as [|x l IH]; simpl.
  - apply Permutation_refl.
  - destruct (sql_leb (w_added_date x) (w_added_date r)).
    + apply Permutation_refl.
    + eapply perm_trans; [apply perm_skip, IH | apply perm_swap].
Qed.

Lemma order_by_perm (l : list wishlist_row) :
  Permutation (order_by_added_date_desc l) l.
Proof.
  induction l as [|r l IH]; simpl.
  - constructor.
  - eapply perm_trans; [apply insert_desc_perm | apply perm_skip, IH].
Qed.

Lemma insert_desc_sorted (r : wishlist_row) (l : list wishlist_row) :
  StronglySorted added_date_ge l -> StronglySorted added_date_ge (insert_desc r l).
Proof.
  induction 1 as [|x l Hs IH Hx]; simpl.
  - repeat constructor.
  - destruct (sql_leb (w_added_date x) (w_added_date r)) eqn:E0.
    + constructor; [constructor; assumption|].
      constructor; [exact E0|].
      rewrite Forall_forall in Hx |- *. intros y Hy.
      unfold added_date_ge in *. eapply sql_leb_trans; [apply Hx, Hy | exact E0].
    + constructor; [exact IH|].
      apply (Permutation_Forall (Permutation_sym (insert_desc_perm r l))).
      constructor; [|exact Hx].
      unfold added_date_ge. apply sql_leb_total, E0.
Qed.

Lemma order_by_sorted (l : list wishlist_row) :
  StronglySorted added_date_ge (order_by_added_date_desc l).
Proof.
  induction l as [|r l IH]; simpl.
  - constructor.
  - apply insert_desc_sorted, IH.
Qed.

(** C2. On a database whose wishlist table exists, GET /api/wishlist/:userId
    answers 200 with the rows whose user_id equals the user id of the path
    (as SQLite compares an INTEGER column with it) and no others, each as
    often as the table holds it, in descending order of added_date.  For the
    user id that is the integer n, a row whose user_id is an integer is
    returned exactly when that integer is n. *)
Theorem wishlist_get_rows_of_user_by_date_desc
    (db : database) (rows : list wishlist_row) (userId : string) :
  wishlist db = Some rows ->
  exists result,
    wishlist_get db userId = (res_json (JArr (map item_json result)), db)
    /\ Permutation result
         (filter (fun r => sql_equal (w_user_id r)
                             (integer_affinity (SqlText userId))) rows)
    /\ (forall r, In r result <->
                  In r rows
                  /\ sql_equal (w_user_id r) (integer_affinity (SqlText userId))
                     = true)
    /\ (forall n k r,
           integer_affinity (SqlText userId) = SqlInt n ->
           w_user_id r = SqlInt k ->
           (In r result <-> In r rows /\ k = n))
    /\ StronglySorted added_date_ge result.
Proof.
  intros Hw.
  exists (order_by_added_date_desc (filter (user_id_is userId) rows)).
  unfold wishlist_get, select_wishlist. rewrite Hw.
  assert (forall r,
             In r (order_by_added_date_desc (filter (user_id_is userId) rows))
             <-> In r rows
                 /\ sql_equal (w_user_id r) (integer_affinity (SqlText userId))
                    = true) as M.
  { intros r. rewrite <- (filter_In (user_id_is userId)).
    split; apply Permutation_in;
      [apply order_by_perm | apply Permutation_sym, order_by_perm]. }
  split; [reflexivity|]. split; [apply order_by_perm|].
  split; [exact M|]. split; [|apply order_by_sorted].
  intros n k r Hn Hk. rewrite M, Hn, Hk, sql_equal_integers, Z.eqb_eq.
  reflexivity.
Qed.

(** ** Keys, rowids and the uniqueness constraints *)

Lemma max_rowid_ge {A} (id : A -> Z) (rows : list A) (r : A) :
  In r rows -> id r <= max_rowid id rows.
Proof.
  induction rows as [|x rows IH]; simpl; [tauto|].
  intros [->|H]; [lia|]. specialize (IH H). lia.
Qed.

Lemma next_rowid_fresh {A} (id : A -> Z) (rows : list A) (seq : Z) :
  ~ In (next_rowid id rows seq) (map id rows).
Proof.
  rewrite in_map_iff. intros [r [E0 H]].
  apply (max_rowid_ge id) in H. unfold next_rowid in E0. lia.
Qed.

Lemma NoDup_snoc {A} (l : list A) (x : A) :
  NoDup l -> ~ In x l -> NoDup (l ++ [x])%list.
Proof.
  intros Hl Hx.
  apply (Permutation_NoDup (l := x :: l)).
  - apply Permutation_cons_append.
  - constructor; assumption.
Qed.

Lemma filter_keeps_distinct {K R} (key : R -> K) (keep : R -> bool) :
  forall rows : list R,
    NoDup (map key rows) -> NoDup (map key (filter keep rows)).
Proof.
  intros rows. induction rows as [|r rows IH]; simpl; [auto|].
  intros H. inversion H as [|? ? Hr Hrows]; subst.
  destruct (keep r); simpl; [|auto].
  constructor; [|auto].
  rewrite in_map_iff in *. intros [y [E0 Hy]].
  apply Hr. exists y. split; [exact E0|].
  apply filter_In in Hy. tauto.
Qed.

Lemma pairs_snoc {A} (R : A -> A -> Prop) (l : list A) (x : A) :
  ForallOrdPairs R l -> Forall (fun y => R y x) l ->
  ForallOrdPairs R (l ++ [x])%list.
Proof.
  induction 1 as [|a l Ha Hl IH]; simpl; intros F.
  - repeat constructor.
  - inversion F as [|? ? Hax Fl]; subst.
    constructor; [|apply IH, Fl].
    apply Forall_app. split; [exact Ha|]. constructor; [exact Hax|constructor].
Qed.

Lemma pairs_filter {A} (R : A -> A -> Prop) (keep : A -> bool) (l : list A) :
  ForallOrdPairs R l -> ForallOrdPairs R (filter keep l).
Proof.
  induction 1 as [|a l Ha Hl IH]; simpl; [constructor|].
  destruct (keep a); [|exact IH].
  constructor; [|exact IH].
  rewrite Forall_forall in *. intros y Hy. apply Ha.
  apply filter_In in Hy. tauto.
Qed.

Lemma pairs_map {A} (R : A -> A -> Prop) (f : A -> A) (l : list A) :
  (forall a b, R a b -> R (f a) (f b)) ->
  ForallOrdPairs R l -> ForallOrdPairs R (map f l).
Proof.
  intros Hf. induction 1 as [|a l Ha Hl IH]; simpl; constructor; [|exact IH].
  rewrite Forall_forall in *. intros y Hy.
  apply in_map_iff in Hy. destruct Hy as [b [<- Hb]]. apply Hf, Ha, Hb.
Qed.

Lemma pairs_nth {A} (R : A -> A -> Prop) (l : list A) :
  ForallOrdPairs R l ->
  forall (i j : nat) (a b : A),
    (i < j)%nat -> nth_error l i = Some a -> nth_error l j = Some b -> R a b.
Proof.
  induction 1 as [|x l Hx Hl IH]; intros i j a b Lt Ha Hb.
  - destruct i; discriminate Ha.
  - destruct j as [|j]; [lia|]. destruct i as [|i]; simpl in Ha, Hb.
    + inversion Ha; subst. rewrite Forall_forall in Hx.
      apply Hx. apply (nth_error_In _ _ Hb).
    + apply (IH i j); [lia|assumption ..].
Qed.

(** Among rows no two of which stand for the same thing, at most one passes
    a test that only rows standing for the same thing pass together. *)
Lemma at_most_one_of_a_kind {A} (same : A -> A -> bool) (p : A -> bool)
    (l : list A) :
  ForallOrdPairs (fun a b => same a b = false) l ->
  (forall a b, p a = true -> p b = true -> same a b = true) ->
  (List.length (filter p l) <= 1)%nat.
Proof.
  intros U Hp. induction U as [|a l Ha Hl IH]; simpl; [lia|].
  destruct (p a) eqn:Pa; [|exact IH].
  assert (filter p l = []) as ->; [|simpl; lia].
  rewrite Forall_forall in Ha. clear IH Hl.
  induction l as [|b l IHl]; simpl; [reflexivity|].
  destruct (p b) eqn:Pb.
  - specialize (Ha b (or_introl eq_refl)). rewrite (Hp a b Pa Pb) in Ha.
    discriminate Ha.
  - apply IHl. intros y Hy. apply Ha. right. exact Hy.
Qed.

Lemma at_least_one {A} (p : A -> bool) (l : list A) :
  existsb p l = true -> (1 <= List.length (filter p l))%nat.
Proof.
  induction l as [|x l IH]; simpl; [discriminate|].
  destruct (p x); simpl; [lia|exact IH].
Qed.

Lemma username_free (rows : list user_row) (v : sqlval) :
  username_taken rows v = false -> ~ In v (map u_username rows).
Proof.
  unfold username_taken. intros H Hin.
  apply in_map_iff in Hin. destruct Hin as [r [E0 Hr]].
  assert (existsb (fun r => sql_eqb (u_username r) v) rows = true) as T.
  { apply existsb_exists. exists r. split; [exact Hr|]. apply sql_eqb_eq, E0. }
  congruence.
Qed.

Lemma key_taken_iff (rows : list wishlist_row) (uid cc : sqlval) :
  key_taken rows uid cc = true <->
  exists r, In r rows
            /\ sql_equal (w_user_id r) uid = true
            /\ sql_equal (w_country_code r) cc = true.
Proof.
  unfold key_taken. rewrite existsb_exists.
  split; intros [r [Hr H]]; exists r; (split; [exact Hr|]).
  - apply andb_true_iff, H.
  - apply andb_true_iff, H.
Qed.

Lemma key_free (rows : list wishlist_row) (r0 : wishlist_row) :
  key_taken rows (w_user_id r0) (w_country_code r0) = false ->
  Forall (fun r => same_entry r r0 = false) rows.
Proof.
  intros K. apply Forall_forall. intros r Hr.
  destruct (same_entry r r0) eqn:S; [|reflexivity].
  unfold same_entry in S. apply andb_true_iff in S.
  assert (key_taken rows (w_user_id r0) (w_country_code r0) = true) as T
    by (apply key_taken_iff; exists r; tauto).
  congruence.
Qed.

Lemma same_entry_set_rating_notes (p : wishlist_row -> bool) (rt nt : sqlval)
    (a b : wishlist_row) :
  same_entry a b = false ->
  same_entry (if p a then set_rating_notes rt nt a else a)
    (if p b then set_rating_notes rt nt b else b) = false.
Proof. destruct (p a), (p b); exact (fun H => H). Qed.

(** A test on a row against the path, [user_id = ? AND country_code = ?],
    is [item_is]. *)
Lemma item_is_spelled (userId countryCode : string) (r : wishlist_row) :
  (sql_equal (w_user_id r) (integer_affinity (SqlText userId))
   && sql_equal (w_country_code r) (SqlText countryCode))%bool
  = item_is userId countryCode r.
Proof. unfold item_is, user_id_is. rewrite sql_equal_text. reflexivity. Qed.

Lemma item_is_same_entry (userId countryCode : string) (a b : wishlist_row) :
  item_is userId countryCode a = true -> item_is userId countryCode b = true ->
  same_entry a b = true.
Proof.
  rewrite <- !item_is_spelled, !andb_true_iff. intros [A1 A2] [B1 B2].
  unfold same_entry. rewrite (sql_equal_both _ _ _ A1 B1).
  rewrite (sql_equal_both _ _ _ A2 B2). reflexivity.
Qed.

(** ** What each statement does to the tables *)

Lemma insert_user_inv (db db' : database) (un em : jsval) (now : string) (id : Z) :
  insert_user db un em now = inr (id, db') ->
  exists rows,
    users db = Some rows
    /\ username_taken rows (text_affinity (bind un)) = false
    /\ id = next_rowid u_id rows (seq_users db)
    /\ db' = set_users db
               (rows ++ [mk_user id (text_affinity (bind un))
                           (text_affinity (bind em)) (SqlText now)])%list id.
Proof.
  unfold insert_user. destruct (users db) as [rows|]; [|discriminate].
  destruct (is_null _); [discriminate|].
  destruct (is_null _); [discriminate|].
  destruct (email_taken _ _); [discriminate|].
  destruct (username_taken _ _) eqn:U; [discriminate|].
  intros H. inversion H; subst. exists rows. auto.
Qed.

Lemma insert_wishlist_inv (db db' : database) (userId : string)
    (cc cn rt nt : jsval) (now : string) (id : Z) :
  insert_wishlist db userId cc cn rt nt now = inr (id, db') ->
  exists rows,
    wishlist db = Some rows
    /\ key_taken rows (integer_affinity (SqlText userId))
         (text_affinity (bind cc)) = false
    /\ id = next_rowid w_id rows (seq_wishlist db)
    /\ db' = set_wishlist db
               (rows ++ [mk_item id (integer_affinity (SqlText userId))
                           (text_affinity (bind cc)) (text_affinity (bind cn))
                           (integer_affinity (bind rt)) (text_affinity (bind nt))
                           (SqlText now)])%list id.
Proof.
  unfold insert_wishlist. destruct (wishlist db) as [rows|]; [|discriminate].
  destruct (is_null _); [discriminate|].
  destruct (is_null _); [discriminate|].
  destruct (is_null _); [discriminate|].
  destruct (key_taken _ _ _) eqn:K; [discriminate|].
  intros H. inversion H; subst. exists rows. auto.
Qed.

Lemma constraints_set_users (db : database) (rows : list user_row) (seq : Z) :
  constraints_hold db ->
  NoDup (map u_id rows) -> NoDup (map u_username rows) ->
  constraints_hold (set_users db rows seq).
Proof.
  intros [_ _ Hk] Hid Hun.
  split; simpl; intros rs E0; [inversion E0; subst; assumption ..|auto].
Qed.

Lemma constraints_set_wishlist (db : database) (rows : list wishlist_row)
    (seq : Z) :
  constraints_hold db -> unique_keys rows ->
  constraints_hold (set_wishlist db rows seq).
Proof.
  intros [Hid Hun _] Hk.
  split; simpl; intros rs E0; [auto ..|inversion E0; subst; assumption].
Qed.

Lemma constraints_insert_user (db db' : database) (un em : jsval)
    (now : string) (id : Z) :
  constraints_hold db ->
  insert_user db un em now = inr (id, db') -> constraints_hold db'.
Proof.
  intros C H. apply insert_user_inv in H.
  destruct H as [rows [Hu [Hfree [-> ->]]]].
  apply constraints_set_users; [exact C| |]; rewrite map_app; simpl;
    apply NoDup_snoc.
  - apply (users_pk db C), Hu.
  - apply next_rowid_fresh.
  - apply (users_username_unique db C), Hu.
  - apply username_free, Hfree.
Qed.

Lemma constraints_insert_wishlist (db db' : database) (userId : string)
    (cc cn rt nt : jsval) (now : string) (id : Z) :
  constraints_hold db ->
  insert_wishlist db userId cc cn rt nt now = inr (id, db') ->
  constraints_hold db'.
Proof.
  intros C H. apply insert_wishlist_inv in H.
  destruct H as [rows [Hw [Hfree [-> ->]]]].
  apply constraints_set_wishlist; [exact C|].
  apply pairs_snoc.
  - apply (wishlist_key_unique db C), Hw.
  - apply key_free. exact Hfree.
Qed.

Lemma constraints_update_wishlist (db db' : database) (rt nt : jsval)
    (userId countryCode : string) (n : Z) :
  constraints_hold db ->
  update_wishlist db rt nt userId countryCode = inr (n, db') ->
  constraints_hold db'.
Proof.
  intros C. unfold update_wishlist.
  destruct (wishlist db) as [rows|] eqn:Hw; [|discriminate].
  intros H. inversion H; subst.
  apply constraints_set_wishlist; [exact C|].
  apply (pairs_map _ (fun r => if item_is userId countryCode r
                               then set_rating_notes _ _ r else r)).
  - intros a b. apply same_entry_set_rating_notes.
  - apply (wishlist_key_unique db C), Hw.
Qed.

Lemma constraints_delete_wishlist (db db' : database)
    (userId countryCode : string) (n : Z) :
  constraints_hold db ->
  delete_wishlist db userId countryCode = inr (n, db') ->
  constraints_hold db'.
Proof.
  intros C. unfold delete_wishlist.
  destruct (wishlist db) as [rows|] eqn:Hw; [|discriminate].
  intros H. inversion H; subst.
  apply constraints_set_wishlist; [exact C|].
  apply pairs_filter, (wishlist_key_unique db C), Hw.
Qed.

Lemma constraints_handle (db : database) (now : string) (q : request) :
  constraints_hold db -> constraints_hold (snd (handle db now q)).
Proof.
  intros C. destruct q as [id|b|userId|userId b|userId countryCode b|userId countryCode];
    simpl.
  - unfold users_get. destruct (select_user db id); assumption.
  - unfold users_post.
    destruct (insert_user _ _ _ _) as [e|[id db']] eqn:E0; simpl; [assumption|].
    eapply constraints_insert_user; eassumption.
  - unfold wishlist_get. destruct (select_wishlist db userId); assumption.
  - unfold wishlist_post.
    destruct (insert_wishlist _ _ _ _ _ _ _) as [e|[id db']] eqn:E0; simpl;
      [assumption|].
    eapply constraints_insert_wishlist; eassumption.
  - unfold wishlist_put.
    destruct (update_wishlist _ _ _ _ _) as [e|[n db']] eqn:E0; simpl;
      [assumption|].
    eapply constraints_update_wishlist; eassumption.
  - unfold wishlist_delete.
    destruct (delete_wishlist _ _ _) as [e|[n db']] eqn:E0; simpl; [assumption|].
    eapply constraints_delete_wishlist; eassumption.
Qed.

Lemma constraints_create_users (db : database) :
  constraints_hold db -> constraints_hold (create_users_table db).
Proof.
  intros C. unfold create_users_table. destruct (users db); [exact C|].
  apply constraints_set_users; [exact C|constructor ..].
Qed.

Lemma constraints_create_wishlist (db : database) :
  constraints_hold db -> constraints_hold (create_wishlist_table db).
Proof.
  intros C. unfold create_wishlist_table. destruct (wishlist db); [exact C|].
  apply constraints_set_wishlist; [exact C|constructor].
Qed.

Lemma constraints_insert_demo (db : database) (now : string) :
  constraints_hold db -> constraints_hold (insert_demo_user db now).
Proof.
  intros C. unfold insert_demo_user.
  destruct (users db) as [rows|] eqn:Hu; [|exact C].
  destruct (username_taken rows demo_username) eqn:U; simpl.
  - apply constraints_set_users; [exact C| |].
    + apply (users_pk db C), Hu.
    + apply (users_username_unique db C), Hu.
  - destruct (email_taken rows demo_email).
    + apply constraints_set_users; [exact C| |].
      * apply (users_pk db C), Hu.
      * apply (users_username_unique db C), Hu.
    + apply constraints_set_users; [exact C| |]; rewrite map_app; simpl;
        apply NoDup_snoc.
      * apply (users_pk db C), Hu.
      * apply next_rowid_fresh.
      * apply (users_username_unique db C), Hu.
      * apply username_free, U.
Qed.

Lemma constraints_step (db : database) (e : event) :
  constraints_hold db -> constraints_hold (step db e).
Proof.
  intros C. destruct e as [now|now q]; simpl.
  - apply constraints_insert_demo, constraints_create_wishlist,
      constraints_create_users, C.
  - apply constraints_handle, C.
Qed.

Lemma constraints_run (es : list event) :
  forall db, constraints_hold db -> constraints_hold (run db es).
Proof.
  induction es as [|e es IH]; intros db C; simpl; [exact C|].
  apply IH, constraints_step, C.
Qed.

Lemma constraints_fresh : constraints_hold fresh_file.
Proof. split; simpl; discriminate. Qed.

Lemma is_null_text_affinity (v : sqlval) : is_null (text_affinity v) = is_null v.
Proof. destruct v; reflexivity. Qed.

Lemma integer_affinity_text_not_null (s : string) :
  is_null (integer_affinity (SqlText s)) = false.
Proof.
  cbn [integer_affinity]. destruct (text_number s) as [[n|x]|]; try reflexivity.
  unfold real_to_integer. destruct (real_integer x) as [n|]; [|reflexivity].
  destruct (_ && _)%bool; reflexivity.
Qed.

Lemma set_wishlist_same (db : database) (rows : list wishlist_row) :
  wishlist db = Some rows -> set_wishlist db rows (seq_wishlist db) = db.
Proof.
  destruct db as [u w su sw]. simpl. intros ->. reflexivity.
Qed.

Lemma filter_none {A} (p : A -> bool) (l : list A) :
  (forall x, In x l -> p x = false) -> filter p l = [].
Proof.
  induction l as [|x l IH]; simpl; intros H; [reflexivity|].
  rewrite (H x) by auto. apply IH. auto.
Qed.

Lemma filter_all {A} (p : A -> bool) (l : list A) :
  (forall x, In x l -> p x = true) -> filter p l = l.
Proof.
  induction l as [|x l IH]; simpl; intros H; [reflexivity|].
  rewrite (H x) by auto. f_equal. apply IH. auto.
Qed.

Lemma NoDup_map_inj_on {A B} (f : A -> B) (l : list A) (x y : A) :
  NoDup (map f l) -> In x l -> In y l -> f x = f y -> x = y.
Proof.
  induction l as [|a l IH]; simpl; [tauto|].
  intros H. inversion H as [|? ? Ha Hl]; subst.
  intros [->|Hx] [->|Hy] E0; auto.
  - exfalso. apply Ha. rewrite E0. apply in_map, Hy.
  - exfalso. apply Ha. rewrite <- E0. apply in_map, Hx.
Qed.

Lemma integral_integer (n : Z) : integral (inject_Z n) = Some n.
Proof.
  unfold integral. rewrite Qfloor_Z, Qeq_bool_refl. reflexivity.
Qed.

(** A safe integer given as a number is stored by an INTEGER column as that
    INTEGER, whichever way the driver binds it; an integer of 32 bits is
    stored by a TEXT column as its decimal writing. *)
Lemma number_in_integer_column (n : Z) :
  safe_integer n = true -> integer_affinity (bind (JNum n)) = SqlInt n.
Proof.
  intros S. cbn [bind]. unfold bind_number.
  destruct (driver_real n) as [x|] eqn:D; [|reflexivity].
  cbn [integer_affinity]. unfold real_to_integer, real_integer.
  rewrite (driver_real_safe n x S D), integral_integer.
  unfold safe_integer in S. apply Z.leb_le in S.
  assert ((- 2 ^ 63 <? n)%Z = true) as -> by (apply Z.ltb_lt; lia).
  assert ((n <? 2 ^ 63 - 1)%Z = true) as -> by (apply Z.ltb_lt; lia).
  reflexivity.
Qed.

Lemma number_in_text_column (n : Z) :
  in_int32 n = true -> text_affinity (bind (JNum n)) = SqlText (decimal n).
Proof.
  intros R. cbn [bind]. unfold bind_number.
  rewrite (driver_real_int32 n R). reflexivity.
Qed.

(** ** The wishlist handlers *)

(** C1. POST /api/wishlist/:userId for a (user id, country code) pair that a
    row already holds (the row's user_id and country_code equal, as SQLite
    compares them, what the request would store) makes the insert fail: the
    handler answers 400 with the database's error message and the file is as
    before; when the body has a country code and a country name the error is
    the one of UNIQUE(user_id, country_code).  And in every state the file
    can reach, no two wishlist rows are entries of the same user for the same
    country: two rows at different places never have both an equal user_id
    and an equal country_code. *)
Theorem wishlist_post_duplicate_rejected :
  (forall (db : database) (rows : list wishlist_row) (userId : string)
          (b : req_body) (now : string) (r : wishlist_row),
      wishlist db = Some rows -> In r rows ->
      sql_equal (w_user_id r) (integer_affinity (SqlText userId)) = true ->
      sql_equal (w_country_code r) (text_affinity (bind (country_code b)))
      = true ->
      exists err,
        reported_error db now (PostWishlist userId b) = Some err
        /\ wishlist_post db userId b now
           = (res_status_json 400 (error_body (message err)), db)
        /\ (is_null (bind (country_code b)) = false ->
            is_null (bind (country_name b)) = false ->
            err = UniqueFailed "wishlist.user_id, wishlist.country_code"))
  /\ (forall (es : list event) (rows : list wishlist_row),
        wishlist (run fresh_file es) = Some rows ->
        unique_keys rows
        /\ forall (i j : nat) (r1 r2 : wishlist_row),
            i <> j -> nth_error rows i = Some r1 -> nth_error rows j = Some r2 ->
            (sql_equal (w_user_id r1) (w_user_id r2)
             && sql_equal (w_country_code r1) (w_country_code r2))%bool
            = false).
Proof.
  split.
  - intros db rows userId b now r Hw Hr Hu Hc.
    assert (key_taken rows (integer_affinity (SqlText userId))
              (text_affinity (bind (country_code b))) = true) as K.
    { apply key_taken_iff. exists r. auto. }
    unfold wishlist_post, reported_error, insert_wishlist.
    rewrite Hw, integer_affinity_text_not_null, !is_null_text_affinity, K.
    destruct (is_null (bind (country_code b)));
      [|destruct (is_null (bind (country_name b)))];
      eexists; (split; [reflexivity|split; [reflexivity|]]);
      intros; congruence.
  - intros es rows H.
    pose proof (wishlist_key_unique _ (constraints_run es _ constraints_fresh)
                  rows H) as U.
    split; [exact U|]. intros i j r1 r2 D H1 H2.
    destruct (Nat.lt_total i j) as [Lt|[->|Lt]]; [|contradiction|].
    + exact (pairs_nth _ rows U i j r1 r2 Lt H1 H2).
    + pose proof (pairs_nth _ rows U j i r2 r1 Lt H2 H1) as S.
      unfold same_entry in S.
      rewrite (sql_equal_sym (w_user_id r1)), (sql_equal_sym (w_country_code r1)).
      exact S.
Qed.

(** C4. DELETE /api/wishlist/:userId/:countryCode for a pair that no row
    holds (no row has both a user_id equal to the path's user id and the
    path's country code) answers 200 with [{ deleted: 0 }] and leaves the
    file as it was. *)
Theorem wishlist_delete_missing_item
    (db : database) (rows : list wishlist_row) (userId countryCode : string) :
  wishlist db = Some rows ->
  (forall r, In r rows ->
             (sql_equal (w_user_id r) (integer_affinity (SqlText userId))
              && sql_equal (w_country_code r) (SqlText countryCode))%bool
             = false) ->
  wishlist_delete db userId countryCode
  = (res_json (JObj [("deleted", JVal (JNum 0))]), db).
Proof.
  intros Hw Hno.
  assert (forall r, In r rows -> item_is userId countryCode r = false) as No
    by (intros r Hr; rewrite <- item_is_spelled; auto).
  unfold wishlist_delete, delete_wishlist. rewrite Hw.
  unfold count_rows. rewrite (filter_none _ _ No). simpl.
  rewrite filter_all.
  - rewrite (set_wishlist_same db rows Hw). reflexivity.
  - intros r Hr. rewrite (No r Hr). reflexivity.
Qed.

(** C5. PUT /api/wishlist/:userId/:countryCode answers 200 with the number
    of matching rows and rewrites the wishlist table row by row: a row whose
    user_id equals the path's user id and whose country_code is the path's
    keeps its id, user_id, country_code, country_name and added_date and
    takes the body's rating and notes (as the INTEGER and TEXT columns store
    what the driver binds; a safe integer and a string as they are);
    every other row is the same row.  The users table and both rowid counters
    are unchanged. *)
Theorem wishlist_put_sets_rating_and_notes_only
    (db : database) (rows : list wishlist_row) (userId countryCode : string)
    (b : req_body) :
  wishlist db = Some rows ->
  exists rows',
    fst (wishlist_put db userId countryCode b)
    = res_json
        (JObj [("updated",
                JVal (JNum (count_rows
                              (fun r =>
                                 (sql_equal (w_user_id r)
                                    (integer_affinity (SqlText userId))
                                  && sql_equal (w_country_code r)
                                       (SqlText countryCode))%bool)
                              rows)))])
    /\ snd (wishlist_put db userId countryCode b)
       = {| users := users db; wishlist := Some rows';
            seq_users := seq_users db; seq_wishlist := seq_wishlist db |}
    /\ List.length rows' = List.length rows
    /\ (forall (i : nat) (r : wishlist_row),
         nth_error rows i = Some r ->
         exists r',
           nth_error rows' i = Some r'
           /\ if (sql_equal (w_user_id r) (integer_affinity (SqlText userId))
                  && sql_equal (w_country_code r) (SqlText countryCode))%bool
              then w_id r' = w_id r
                   /\ w_user_id r' = w_user_id r
                   /\ w_country_code r' = w_country_code r
                   /\ w_country_name r' = w_country_name r
                   /\ w_added_date r' = w_added_date r
                   /\ w_rating r' = integer_affinity (bind (rating b))
                   /\ w_notes r' = text_affinity (bind (notes b))
              else r' = r)
    /\ (forall n, rating b = JNum n -> safe_integer n = true ->
                  integer_affinity (bind (rating b)) = SqlInt n)
    /\ (forall s, notes b = JStr s ->
                  text_affinity (bind (notes b)) = SqlText s).
Proof.
  intros Hw. unfold wishlist_put, update_wishlist. rewrite Hw. cbn [fst snd].
  eexists. split.
  { unfold count_rows.
    rewrite (filter_ext _ (item_is userId countryCode)
               (item_is_spelled userId countryCode)).
    reflexivity. }
  split; [reflexivity|]. split; [apply length_map|]. split.
  - intros i r Hi. rewrite nth_error_map, Hi. cbn [option_map].
    eexists. split; [reflexivity|]. rewrite item_is_spelled.
    destruct (item_is userId countryCode r); [repeat split|reflexivity].
  - split.
    + intros n -> R. apply number_in_integer_column, R.
    + intros s ->. reflexivity.
Qed.

(** C9. PUT /api/wishlist/:userId/:countryCode for a pair that no row holds
    (no row has both a user_id equal to the path's user id and the path's
    country code) answers 200 with [{ updated: 0 }]; the file is as it was,
    so nothing has been inserted. *)
Theorem wishlist_put_missing_item
    (db : database) (rows : list wishlist_row) (userId countryCode : string)
    (b : req_body) :
  wishlist db = Some rows ->
  (forall r, In r rows ->
             (sql_equal (w_user_id r) (integer_affinity (SqlText userId))
              && sql_equal (w_country_code r) (SqlText countryCode))%bool
             = false) ->
  wishlist_put db userId countryCode b
  = (res_json (JObj [("updated", JVal (JNum 0))]), db).
Proof.
  intros Hw Hno.
  assert (forall r, In r rows -> item_is userId countryCode r = false) as No
    by (intros r Hr; rewrite <- item_is_spelled; auto).
  unfold wishlist_put, update_wishlist. rewrite Hw.
  unfold count_rows. rewrite (filter_none _ _ No). simpl.
  rewrite (map_ext_in _ (fun r => r)), map_id.
  - rewrite (set_wishlist_same db rows Hw). reflexivity.
  - intros r Hr. rewrite (No r Hr). reflexivity.
Qed.
Lemma newest_item_set_wishlist (db : database) (rows : list wishlist_row)
    (r : wishlist_row) (seq : Z) :
  newest_item (set_wishlist db (rows ++ [r])%list seq) = Some r.
Proof.
  unfold newest_item. simpl. rewrite map_app. simpl. apply last_last.
Qed.


(** C3. When POST /api/wishlist/:userId creates a row: a rating the body
    omits is 0 in the row and in the response, and notes the body omits are
    the empty string in both; a rating the body gives as an integer (a safe
    integer, as JSON numbers are) is that integer in the row and in the
    response, and notes the body gives as a string are that string in
    both. *)
Theorem wishlist_post_defaults
    (db db' : database) (userId : string) (b : req_body) (now : string)
    (resp : response) :
  wishlist_post db userId b now = (resp, db') ->
  status resp = 200 ->
  exists row,
    newest_item db' = Some row
    /\ (supplied (rating b) = false ->
        w_rating row = SqlInt 0
        /\ property "rating" (body resp) = Some (JVal (JNum 0)))
    /\ (supplied (notes b) = false ->
        w_notes row = SqlText ""
        /\ property "notes" (body resp) = Some (JVal (JStr "")))
    /\ (forall n, rating b = JNum n -> safe_integer n = true ->
                  w_rating row = SqlInt n
                  /\ property "rating" (body resp) = Some (JVal (JNum n)))
    /\ (forall s, notes b = JStr s ->
                  w_notes row = SqlText s
                  /\ property "notes" (body resp) = Some (JVal (JStr s))).
Proof.
  unfold wishlist_post.
  destruct (insert_wishlist _ _ _ _ _ _ _) as [e|[id db1]] eqn:E0.
  - intros H Hs. inversion H; subst. discriminate Hs.
  - intros H _. inversion H; subst. clear H.
    apply insert_wishlist_inv in E0. destruct E0 as [rows [_ [_ [_ ->]]]].
    eexists. split; [apply newest_item_set_wishlist|].
    cbn [w_rating w_notes body res_json property].
    assert (forall v, supplied v = false -> truthy v = false) as Hs
      by (intros []; simpl; congruence).
    repeat apply conj.
    + intros T. apply Hs in T. unfold js_or. rewrite T.
      split; [apply (number_in_integer_column 0)|]; reflexivity.
    + intros T. apply Hs in T. unfold js_or. rewrite T. split; reflexivity.
    + intros n -> R.
      assert (js_or (JNum n) (JNum 0) = JNum n) as ->.
      { unfold js_or. simpl. destruct (Z.eqb_spec n 0) as [->|]; reflexivity. }
      split; [apply number_in_integer_column, R|reflexivity].
    + intros s ->.
      assert (js_or (JStr s) (JStr "") = JStr s) as ->.
      { unfold js_or. simpl. destruct s; reflexivity. }
      split; reflexivity.
Qed.

(** C6. When the database reports an error for the statement of a write
    request (POST /api/users; POST, PUT, DELETE on /api/wishlist), the handler
    answers 400 with [{ error: err.message }] and the file is as it was. *)
Theorem write_failure_is_400
    (db : database) (now : string) (q : request) (err : sql_error) :
  is_write q = true ->
  reported_error db now q = Some err ->
  handle db now q = (res_status_json 400 (error_body (message err)), db).
Proof.
  intros W. destruct q; simpl in W; try discriminate W; simpl;
    unfold users_post, wishlist_post, wishlist_put, wishlist_delete.
  - destruct (insert_user _ _ _ _) as [e|[id db']]; simpl; congruence.
  - destruct (insert_wishlist _ _ _ _ _ _ _) as [e|[id db']]; simpl; congruence.
  - destruct (update_wishlist _ _ _ _ _) as [e|[n db']]; simpl; congruence.
  - destruct (delete_wishlist _ _ _) as [e|[n db']]; simpl; congruence.
Qed.


(** ** The users handler *)

(** C7. In every state the file can reach with the users table created, GET
    /api/users/:id answers 200: with the row whose id equals the requested
    one, as SQLite compares the INTEGER id with the text of the path, when
    there is such a row (the primary key leaves room for one only), and with
    the empty object when there is none.  When the path reads as the integer
    [n], that is the row with id [n], or the empty object when no row has
    id [n]. *)
Theorem users_get_row_or_empty
    (es : list event) (rows : list user_row) (id : string) :
  users (run fresh_file es) = Some rows ->
  (forall r, In r rows ->
             sql_equal (SqlInt (u_id r)) (integer_affinity (SqlText id)) = true ->
             users_get (run fresh_file es) id
             = (res_json (user_json r), run fresh_file es))
  /\ ((forall r, In r rows ->
                 sql_equal (SqlInt (u_id r)) (integer_affinity (SqlText id))
                 = false) ->
      users_get (run fresh_file es) id
      = (res_json (JObj []), run fresh_file es))
  /\ (forall n, integer_affinity (SqlText id) = SqlInt n ->
        (forall r, In r rows -> u_id r = n ->
                   users_get (run fresh_file es) id
                   = (res_json (user_json r), run fresh_file es))
        /\ ((forall r, In r rows -> u_id r <> n) ->
            users_get (run fresh_file es) id
            = (res_json (JObj []), run fresh_file es))).
Proof.
  intros Hu.
  pose proof (users_pk _ (constraints_run es _ constraints_fresh) rows Hu) as Hpk.
  assert (forall r, In r rows ->
            sql_equal (SqlInt (u_id r)) (integer_affinity (SqlText id)) = true ->
            users_get (run fresh_file es) id
            = (res_json (user_json r), run fresh_file es)) as Hrow.
  { intros r Hr Eq. unfold users_get, select_user. rewrite Hu.
    destruct (find _ rows) as [r0|] eqn:F.
    - apply find_some in F. destruct F as [H0 E0].
      assert (r0 = r) as ->; [|reflexivity].
      apply (NoDup_map_inj_on u_id rows); auto.
      pose proof (sql_equal_both _ _ _ E0 Eq) as B.
      rewrite sql_equal_integers in B. apply Z.eqb_eq, B.
    - apply (find_none _ _ F) in Hr. cbv beta in Hr. rewrite Eq in Hr.
      discriminate Hr. }
  assert ((forall r, In r rows ->
             sql_equal (SqlInt (u_id r)) (integer_affinity (SqlText id))
             = false) ->
          users_get (run fresh_file es) id
          = (res_json (JObj []), run fresh_file es)) as Hnone.
  { intros Hno. unfold users_get, select_user. rewrite Hu.
    destruct (find _ rows) as [r0|] eqn:F; [|reflexivity].
    apply find_some in F. destruct F as [H0 E0].
    rewrite (Hno r0 H0) in E0. discriminate E0. }
  split; [exact Hrow|]. split; [exact Hnone|].
  intros n En. rewrite En in Hrow, Hnone. split.
  - intros r Hr <-. apply (Hrow r Hr).
    rewrite sql_equal_integers. apply Z.eqb_refl.
  - intros Hno. apply Hnone. intros r Hr.
    rewrite sql_equal_integers. apply Z.eqb_neq, Hno, Hr.
Qed.

(** ** The countries proxy *)

(** C8. Whatever the external source does: when [axios.get] resolves, each of
    the three endpoints answers 200 with the data it resolved with; when it
    throws, /api/countries answers 500 with 'Failed to fetch countries',
    /api/countries/search/:name answers 404 with 'Country not found' and
    /api/countries/region/:region answers 404 with 'Region not found'. *)
Theorem countries_proxy_pass_through_or_fixed_error
    (axios_get : string -> axios_outcome) (name region : string) :
  (forall data,
      axios_get "https://restcountries.com/v3.1/all" = Resolved data ->
      countries_all axios_get = {| status := 200; body := data |})
  /\ (axios_get "https://restcountries.com/v3.1/all" = Thrown ->
      countries_all axios_get
      = {| status := 500;
           body := JObj [("error", JVal (JStr "Failed to fetch countries"))] |})
  /\ (forall data,
        axios_get ("https://restcountries.com/v3.1/name/" ++ name)
        = Resolved data ->
        countries_search axios_get name = {| status := 200; body := data |})
  /\ (axios_get ("https://restcountries.com/v3.1/name/" ++ name) = Thrown ->
      countries_search axios_get name
      = {| status := 404;
           body := JObj [("error", JVal (JStr "Country not found"))] |})
  /\ (forall data,
        axios_get ("https://restcountries.com/v3.1/region/" ++ region)
        = Resolved data ->
        countries_region axios_get region = {| status := 200; body := data |})
  /\ (axios_get ("https://restcountries.com/v3.1/region/" ++ region) = Thrown ->
      countries_region axios_get region
      = {| status := 404;
           body := JObj [("error", JVal (JStr "Region not found"))] |}).
Proof.
  unfold countries_all, countries_search, countries_region.
  repeat apply conj; intros; rewrite H; reflexivity.
Qed.


(** ** Initialisation *)

Lemma is_demo_username_taken (rows : list user_row) :
  existsb is_demo rows = true -> username_taken rows demo_username = true.
Proof.
  unfold username_taken. rewrite !existsb_exists.
  intros [r [Hr D]]. exists r. split; [exact Hr|].
  unfold is_demo in D. apply andb_true_iff in D. tauto.
Qed.

Lemma handle_pristine (db : database) (now : string) (q : request) :
  pristine db -> snd (handle db now q) = db.
Proof.
  intros [Hu Hw]. destruct q; simpl;
    unfold users_get, users_post, wishlist_get, wishlist_post, wishlist_put,
      wishlist_delete, select_user, insert_user, select_wishlist,
      insert_wishlist, update_wishlist, delete_wishlist;
    rewrite ?Hu, ?Hw; reflexivity.
Qed.

Lemma initialize_pristine (db : database) (now : string) :
  pristine db -> seeded (initialize db now).
Proof.
  intros [Hu Hw]. unfold initialize, create_users_table. rewrite Hu.
  unfold create_wishlist_table. simpl. rewrite Hw.
  unfold insert_demo_user. simpl.
  eexists. split; [reflexivity|]. split; [discriminate|]. reflexivity.
Qed.

Lemma initialize_seeded (db : database) (now : string) :
  seeded db ->
  users (initialize db now) = users db
  /\ wishlist (initialize db now) = wishlist db.
Proof.
  intros [rows [Hu [Hw D]]]. apply is_demo_username_taken in D.
  unfold initialize, create_users_table. rewrite Hu.
  unfold create_wishlist_table.
  destruct (wishlist db) as [items|] eqn:E0; [|congruence].
  unfold insert_demo_user. rewrite Hu, D. simpl. auto.
Qed.

Lemma seeded_initialize (db : database) (now : string) :
  seeded db -> seeded (initialize db now).
Proof.
  intros S. destruct (initialize_seeded db now S) as [Eu Ew].
  destruct S as [rows [Hu [Hw D]]].
  exists rows. rewrite Eu, Ew. auto.
Qed.

Lemma seeded_handle (db : database) (now : string) (q : request) :
  seeded db -> seeded (snd (handle db now q)).
Proof.
  intros [rows [Hu [Hw D]]].
  destruct q as [id|b|userId|userId b|userId countryCode b|userId countryCode];
    simpl.
  - unfold users_get. destruct (select_user db id); exists rows; auto.
  - unfold users_post.
    destruct (insert_user _ _ _ _) as [e|[id db']] eqn:E0; simpl;
      [exists rows; auto|].
    apply insert_user_inv in E0. destruct E0 as [rows0 [Hu0 [_ [_ ->]]]].
    rewrite Hu in Hu0. inversion Hu0; subst rows0.
    eexists. split; [reflexivity|]. split; [exact Hw|].
    rewrite existsb_app, D. reflexivity.
  - unfold wishlist_get. destruct (select_wishlist db userId); exists rows; auto.
  - unfold wishlist_post.
    destruct (insert_wishlist _ _ _ _ _ _ _) as [e|[id db']] eqn:E0; simpl;
      [exists rows; auto|].
    apply insert_wishlist_inv in E0. destruct E0 as [items [_ [_ [_ ->]]]].
    exists rows. simpl. split; [exact Hu|]. split; [discriminate|exact D].
  - unfold wishlist_put, update_wishlist.
    destruct (wishlist db) as [items|]; simpl; [|congruence].
    exists rows. simpl. split; [exact Hu|]. split; [discriminate|exact D].
  - unfold wishlist_delete, delete_wishlist.
    destruct (wishlist db) as [items|]; simpl; [|congruence].
    exists rows. simpl. split; [exact Hu|]. split; [discriminate|exact D].
Qed.

Lemma seeded_run (es : list event) :
  forall db, seeded db -> seeded (run db es).
Proof.
  induction es as [|e es IH]; intros db S; simpl; [exact S|].
  apply IH. destruct e as [now|now q]; simpl.
  - apply seeded_initialize, S.
  - apply seeded_handle, S.
Qed.

Lemma pristine_or_seeded_run (es : list event) :
  forall db, pristine db \/ seeded db ->
             pristine (run db es) \/ seeded (run db es).
Proof.
  induction es as [|e es IH]; intros db H; simpl; [exact H|].
  apply IH. destruct e as [now|now q]; simpl; destruct H as [P|S].
  - right. apply initialize_pristine, P.
  - right. apply seeded_initialize, S.
  - left. rewrite (handle_pristine db now q P). exact P.
  - right. apply seeded_handle, S.
Qed.

Lemma seeded_after_startup (es1 es2 : list event) (now0 : string) :
  seeded (run fresh_file (es1 ++ Startup now0 :: es2)).
Proof.
  unfold run. rewrite fold_left_app. simpl. apply seeded_run.
  destruct (pristine_or_seeded_run es1 fresh_file) as [P|S].
  - left. split; reflexivity.
  - apply initialize_pristine, P.
  - apply seeded_initialize, S.
Qed.

Lemma at_most_one_with_key {A B} (f : A -> B) (k : B) (p : A -> bool)
    (l : list A) :
  NoDup (map f l) -> (forall x, p x = true -> f x = k) ->
  (List.length (filter p l) <= 1)%nat.
Proof.
  intros Hnd Hp. induction l as [|x l IH]; simpl; [lia|].
  inversion Hnd as [|? ? Hx Hl]; subst.
  destruct (p x) eqn:Px; [|auto].
  rewrite filter_none; [simpl; lia|].
  intros y Hy. destruct (p y) eqn:Py; [|reflexivity].
  exfalso. apply Hx. rewrite (Hp x Px), <- (Hp y Py). apply in_map, Hy.
Qed.

Lemma demo_users_le_1 (db : database) :
  constraints_hold db -> demo_users db <= 1.
Proof.
  intros C. unfold demo_users.
  destruct (users db) as [rows|] eqn:Hu; [|lia].
  pose proof (at_most_one_with_key u_username demo_username is_demo rows
                (users_username_unique db C rows Hu)) as H.
  unfold count_rows. 
  assert (List.length (filter is_demo rows) <= 1)%nat; [|lia].
  apply H. intros r D. unfold is_demo in D.
  apply andb_true_iff in D. apply sql_eqb_eq. tauto.
Qed.

(** C10. Once db.js has run on the file, whatever was served or restarted
    before and after, running it again leaves the rows of users and of
    wishlist as they are, and users holds the seed user exactly once; in no
    reachable state does users hold the seed user twice. *)
Theorem initialize_again_changes_no_row
    (es1 es2 : list event) (now0 now : string) :
  let db := run fresh_file (es1 ++ Startup now0 :: es2) in
  users (initialize db now) = users db
  /\ wishlist (initialize db now) = wishlist db
  /\ demo_users (initialize db now) = 1
  /\ forall es, demo_users (run fresh_file es) <= 1.
Proof.
  intros db.
  pose proof (seeded_after_startup es1 es2 now0) as S. fold db in S.
  destruct (initialize_seeded db now S) as [Eu Ew].
  split; [exact Eu|]. split; [exact Ew|]. split.
  - assert (constraints_hold db) as C
      by apply (constraints_run _ _ constraints_fresh).
    pose proof (demo_users_le_1 db C) as Hle.
    unfold demo_users in *. rewrite Eu.
    destruct S as [rows [Hu [_ D]]]. rewrite Hu in *.
    apply at_least_one in D. unfold count_rows in *. lia.
  - intros es. apply demo_users_le_1, constraints_run, constraints_fresh.
Qed.


(* ================================================================== *)
(** * Further properties of the handlers *)
(* ================================================================== *)

(** ** An id written in decimal is read back by the INTEGER column *)

Lemma integer_affinity_decimal (n : Z) :
  in_int64 n = true -> integer_affinity (SqlText (decimal n)) = SqlInt n.
Proof.
  intros R. cbn [integer_affinity]. rewrite (text_number_decimal n R).
  reflexivity.
Qed.

Lemma sql_equal_refl (v : sqlval) : is_null v = false -> sql_equal v v = true.
Proof.
  destruct v as [|n|x|s]; cbn [sql_equal number_of is_null];
    [discriminate|intros _ ..].
  - rewrite xeqb_integers. apply Z.eqb_refl.
  - destruct (real_value x); simpl; auto using Qeq_bool_refl.
  - apply String.eqb_refl.
Qed.

(** ** Creating users *)

Lemma username_taken_iff (rows : list user_row) (v : sqlval) :
  username_taken rows v = true <-> In v (map u_username rows).
Proof.
  unfold username_taken. rewrite existsb_exists, in_map_iff.
  split; intros [r [A B]]; exists r.
  - apply sql_eqb_eq in B. auto.
  - split; [exact B|]. apply sql_eqb_eq, A.
Qed.

Lemma email_taken_iff (rows : list user_row) (v : sqlval) :
  email_taken rows v = true <-> In v (map u_email rows).
Proof.
  unfold email_taken. rewrite existsb_exists, in_map_iff.
  split; intros [r [A B]]; exists r.
  - apply sql_eqb_eq in B. auto.
  - split; [exact B|]. apply sql_eqb_eq, A.
Qed.

Lemma find_skips {A} (p : A -> bool) (l l' : list A) :
  (forall x, In x l -> p x = false) -> find p (l ++ l')%list = find p l'.
Proof.
  induction l as [|x l IH]; simpl; intros H; [reflexivity|].
  rewrite (H x) by auto. apply IH. auto.
Qed.

(** X1. POST /api/users, then GET /api/users/:id with the returned id
    written in decimal: the response of the POST carries the new id, and the
    GET on the resulting file answers 200 with the created user: that id, the
    username and email of the body as the TEXT columns hold them (a string as
    it is, a small integer as its decimal writing), and the clock's creation
    date. *)
Theorem users_post_then_get
    (db db' : database) (b : req_body) (now : string) (resp : response) :
  users_post db b now = (resp, db') ->
  status resp = 200 ->
  exists id,
    created_id resp = Some id
    /\ (in_int64 id = true ->
        users_get db' (decimal id)
        = (res_json
             (JObj [("id", JVal (JNum (js_number id)));
                    ("username",
                     JVal (of_sql (text_affinity (bind (username b)))));
                    ("email", JVal (of_sql (text_affinity (bind (email b)))));
                    ("created_at", JVal (JStr now))]),
           db'))
    /\ (forall name, username b = JStr name ->
                     of_sql (text_affinity (bind (username b))) = JStr name)
    /\ (forall address, email b = JStr address ->
                        of_sql (text_affinity (bind (email b))) = JStr address)
    /\ (forall n, username b = JNum n -> in_int32 n = true ->
                  of_sql (text_affinity (bind (username b)))
                  = JStr (decimal n)).
Proof.
  unfold users_post.
  destruct (insert_user _ _ _ _) as [e|[id db1]] eqn:EQ.
  - intros H Hs. inversion H; subst. discriminate Hs.
  - intros H _. inversion H; subst. clear H.
    exists id. split; [reflexivity|]. split.
    + intros R.
      apply insert_user_inv in EQ. destruct EQ as [rows [Hu [_ [Hid ->]]]].
      unfold users_get, select_user.
      rewrite (integer_affinity_decimal _ R). cbn [users set_users].
      rewrite find_skips.
      * cbn [find u_id]. rewrite sql_equal_integers, Z.eqb_refl. reflexivity.
      * intros r Hr. apply (max_rowid_ge u_id) in Hr.
        rewrite sql_equal_integers. apply Z.eqb_neq.
        unfold next_rowid in Hid. lia.
    + split; [intros name ->; reflexivity|].
      split; [intros address ->; reflexivity|].
      intros n -> R. rewrite (number_in_text_column n R). reflexivity.
Qed.

(** X2. POST /api/users creates the user exactly when the users table
    exists, the body has a username and an email (neither missing nor null)
    and no row holds that username or that email; in every other case it
    answers 400 and the file is as it was. *)
Theorem users_post_succeeds_iff (db : database) (b : req_body) (now : string) :
  (status (fst (users_post db b now)) = 200 <->
   exists rows,
     users db = Some rows
     /\ is_null (bind (username b)) = false
     /\ is_null (bind (email b)) = false
     /\ ~ In (text_affinity (bind (username b))) (map u_username rows)
     /\ ~ In (text_affinity (bind (email b))) (map u_email rows))
  /\ (status (fst (users_post db b now)) <> 200 ->
      status (fst (users_post db b now)) = 400
      /\ snd (users_post db b now) = db).
Proof.
  unfold users_post, insert_user.
  destruct (users db) as [rows|]; simpl.
  2:{ split; [split; [discriminate|intros [? [? _]]; discriminate]|auto]. }
  rewrite !is_null_text_affinity.
  destruct (is_null (bind (username b))) eqn:N1; simpl.
  { split; [split; [discriminate|]|auto].
    intros [? [_ [? _]]]; discriminate. }
  destruct (is_null (bind (email b))) eqn:N2; simpl.
  { split; [split; [discriminate|]|auto].
    intros [? [_ [_ [? _]]]]; discriminate. }
  destruct (email_taken rows _) eqn:M; simpl.
  { split; [split; [discriminate|]|auto].
    intros [rs [EQ [_ [_ [_ F]]]]]. inversion EQ; subst rs.
    exfalso. apply F, email_taken_iff, M. }
  destruct (username_taken rows _) eqn:U; simpl.
  { split; [split; [discriminate|]|auto].
    intros [rs [EQ [_ [_ [F _]]]]]. inversion EQ; subst rs.
    exfalso. apply F, username_taken_iff, U. }
  split; [|congruence]. split; [|reflexivity]. intros _.
  exists rows. repeat split.
  - intros F. apply username_taken_iff in F. congruence.
  - intros F. apply email_taken_iff in F. congruence.
Qed.

(** ** Creating wishlist items *)

(** X3. POST /api/wishlist/:userId creates the item exactly when the
    wishlist table exists, the body has a country code and a country name
    (neither missing nor null) and no row holds the pair: no row has both a
    user_id equal, as SQLite compares, to the path's user id as the INTEGER
    column takes it, and the country_code the body's would be stored as; in
    every other case it answers 400 and the file is as it was.  The users
    table plays no part: the user id need not be the id of a user. *)
Theorem wishlist_post_succeeds_iff
    (db : database) (userId : string) (b : req_body) (now : string) :
  (status (fst (wishlist_post db userId b now)) = 200 <->
   exists rows,
     wishlist db = Some rows
     /\ is_null (bind (country_code b)) = false
     /\ is_null (bind (country_name b)) = false
     /\ forall r, In r rows ->
                  (sql_equal (w_user_id r) (integer_affinity (SqlText userId))
                   && sql_equal (w_country_code r)
                        (text_affinity (bind (country_code b))))%bool
                  = false)
  /\ (status (fst (wishlist_post db userId b now)) <> 200 ->
      status (fst (wishlist_post db userId b now)) = 400
      /\ snd (wishlist_post db userId b now) = db).
Proof.
  unfold wishlist_post, insert_wishlist.
  destruct (wishlist db) as [rows|].
  2:{ simpl. split; [split; [discriminate|intros [? [? _]]; discriminate]|auto]. }
  rewrite integer_affinity_text_not_null, !is_null_text_affinity.
  destruct (is_null (bind (country_code b))) eqn:N1;
    cbn [fst snd status res_json res_status_json].
  { split; [split; [discriminate|]|auto].
    intros [? [_ [? _]]]; discriminate. }
  destruct (is_null (bind (country_name b))) eqn:N2;
    cbn [fst snd status res_json res_status_json].
  { split; [split; [discriminate|]|auto].
    intros [? [_ [_ [? _]]]]; discriminate. }
  destruct (key_taken rows _ _) eqn:K;
    cbn [fst snd status res_json res_status_json].
  { split; [split; [discriminate|]|auto].
    intros [rs [EQ [_ [_ F]]]]. inversion EQ; subst rs.
    apply key_taken_iff in K. destruct K as [r [Hr [A B]]].
    specialize (F r Hr). rewrite A, B in F. discriminate F. }
  split; [|congruence]. split; [|reflexivity]. intros _.
  exists rows. repeat split. intros r Hr.
  destruct (_ && _)%bool eqn:T; [|reflexivity].
  apply andb_true_iff in T.
  assert (key_taken rows (integer_affinity (SqlText userId))
            (text_affinity (bind (country_code b))) = true) as K'
    by (apply key_taken_iff; exists r; tauto).
  congruence.
Qed.

(** ** The rest of the schema as an invariant *)

Lemma insert_user_checks (db db' : database) (un em : jsval) (now : string)
    (id : Z) :
  insert_user db un em now = inr (id, db') ->
  is_null (text_affinity (bind un)) = false
  /\ is_null (text_affinity (bind em)) = false
  /\ forall rows, users db = Some rows ->
                  email_taken rows (text_affinity (bind em)) = false.
Proof.
  unfold insert_user. destruct (users db) as [rows|]; [|discriminate].
  destruct (is_null (text_affinity (bind un))); [discriminate|].
  destruct (is_null (text_affinity (bind em))); [discriminate|].
  destruct (email_taken _ _) eqn:M; [discriminate|].
  destruct (username_taken _ _); [discriminate|].
  intros _. repeat split. intros rs EQ. inversion EQ; subst. exact M.
Qed.

Lemma insert_wishlist_checks (db db' : database) (userId : string)
    (cc cn rt nt : jsval) (now : string) (id : Z) :
  insert_wishlist db userId cc cn rt nt now = inr (id, db') ->
  is_null (text_affinity (bind cc)) = false
  /\ is_null (text_affinity (bind cn)) = false.
Proof.
  unfold insert_wishlist. destruct (wishlist db) as [rows|]; [|discriminate].
  destruct (is_null (integer_affinity _)); [discriminate|].
  destruct (is_null (text_affinity (bind cc))); [discriminate|].
  destruct (is_null (text_affinity (bind cn))); [discriminate|].
  auto.
Qed.

Lemma schema_set_users (db : database) (rows : list user_row) (seq : Z) :
  schema_holds db ->
  NoDup (map u_email rows) ->
  (forall r, In r rows ->
             is_null (u_username r) = false /\ is_null (u_email r) = false) ->
  schema_holds (set_users db rows seq).
Proof.
  intros [_ _ Hpk Hnn] He Hn.
  split; simpl.
  - intros rs EQ. inversion EQ; subst. exact He.
  - intros rs r EQ. inversion EQ; subst. apply Hn.
  - exact Hpk.
  - exact Hnn.
Qed.

Lemma schema_set_wishlist (db : database) (rows : list wishlist_row) (seq : Z) :
  schema_holds db ->
  NoDup (map w_id rows) ->
  (forall r, In r rows ->
             is_null (w_user_id r) = false
             /\ is_null (w_country_code r) = false
             /\ is_null (w_country_name r) = false) ->
  schema_holds (set_wishlist db rows seq).
Proof.
  intros [He Hn _ _] Hpk Hnn.
  split; simpl.
  - exact He.
  - exact Hn.
  - intros rs EQ. inversion EQ; subst. exact Hpk.
  - intros rs r EQ. inversion EQ; subst. apply Hnn.
Qed.

Lemma schema_append_user (db : database) (rows : list user_row) (r : user_row)
    (seq : Z) :
  schema_holds db -> users db = Some rows ->
  is_null (u_username r) = false -> is_null (u_email r) = false ->
  email_taken rows (u_email r) = false ->
  schema_holds (set_users db (rows ++ [r])%list seq).
Proof.
  intros S Hu N1 N2 M. apply schema_set_users; [exact S| |].
  - rewrite map_app. simpl. apply NoDup_snoc.
    + apply (users_email_unique db S), Hu.
    + intros F. apply email_taken_iff in F. congruence.
  - intros x Hx. apply in_app_or in Hx. destruct Hx as [Hx|[<-|[]]]; [|auto].
    apply (users_not_null db S rows x Hu Hx).
Qed.

Lemma schema_handle (db : database) (now : string) (q : request) :
  schema_holds db -> schema_holds (snd (handle db now q)).
Proof.
  intros S.
  destruct q as [id|b|userId|userId b|userId countryCode b|userId countryCode];
    simpl.
  - unfold users_get. destruct (select_user db id); exact S.
  - unfold users_post.
    destruct (insert_user _ _ _ _) as [e|[id db']] eqn:EQ; simpl; [exact S|].
    destruct (insert_user_checks _ _ _ _ _ _ EQ) as [N1 [N2 M]].
    apply insert_user_inv in EQ. destruct EQ as [rows [Hu [_ [_ ->]]]].
    apply schema_append_user; auto.
  - unfold wishlist_get. destruct (select_wishlist db userId); exact S.
  - unfold wishlist_post.
    destruct (insert_wishlist _ _ _ _ _ _ _) as [e|[id db']] eqn:EQ; simpl;
      [exact S|].
    destruct (insert_wishlist_checks _ _ _ _ _ _ _ _ _ EQ) as [N1 N2].
    apply insert_wishlist_inv in EQ. destruct EQ as [rows [Hw [_ [-> ->]]]].
    apply schema_set_wishlist; [exact S| |].
    + rewrite map_app. simpl. apply NoDup_snoc.
      * apply (wishlist_pk db S), Hw.
      * apply next_rowid_fresh.
    + intros x Hx. apply in_app_or in Hx. destruct Hx as [Hx|[<-|[]]].
      * apply (wishlist_not_null db S rows x Hw Hx).
      * cbn [w_user_id w_country_code w_country_name].
        rewrite integer_affinity_text_not_null. auto.
  - unfold wishlist_put, update_wishlist.
    destruct (wishlist db) as [rows|] eqn:Hw; simpl; [|exact S].
    apply schema_set_wishlist; [exact S| |].
    + rewrite map_map.
      rewrite (map_ext _ w_id); [apply (wishlist_pk db S), Hw|].
      intros r. destruct (item_is userId countryCode r); reflexivity.
    + intros x Hx. apply in_map_iff in Hx. destruct Hx as [r [<- Hr]].
      pose proof (wishlist_not_null db S rows r Hw Hr) as N.
      destruct (item_is userId countryCode r); exact N.
  - unfold wishlist_delete, delete_wishlist.
    destruct (wishlist db) as [rows|] eqn:Hw; simpl; [|exact S].
    apply schema_set_wishlist; [exact S| |].
    + apply filter_keeps_distinct, (wishlist_pk db S), Hw.
    + intros x Hx. apply filter_In in Hx.
      apply (wishlist_not_null db S rows x Hw), Hx.
Qed.

Lemma schema_initialize (db : database) (now : string) :
  schema_holds db -> schema_holds (initialize db now).
Proof.
  intros S. unfold initialize.
  assert (schema_holds (create_users_table db)) as S1.
  { unfold create_users_table. destruct (users db); [exact S|].
    apply schema_set_users; [exact S|constructor|intros r []]. }
  assert (schema_holds (create_wishlist_table (create_users_table db))) as S2.
  { unfold create_wishlist_table.
    destruct (wishlist (create_users_table db)); [exact S1|].
    apply schema_set_wishlist; [exact S1|constructor|intros r []]. }
  set (d := create_wishlist_table (create_users_table db)) in *.
  unfold insert_demo_user. destruct (users d) as [rows|] eqn:Hu; [|exact S2].
  destruct (username_taken rows demo_username); simpl.
  - apply schema_set_users; [exact S2| |].
    + apply (users_email_unique d S2), Hu.
    + intros r. apply (users_not_null d S2 rows r Hu).
  - destruct (email_taken rows demo_email) eqn:M.
    + apply schema_set_users; [exact S2| |].
      * apply (users_email_unique d S2), Hu.
      * intros r. apply (users_not_null d S2 rows r Hu).
    + apply schema_append_user; auto.
Qed.

Lemma schema_run (es : list event) :
  forall db, schema_holds db -> schema_holds (run db es).
Proof.
  induction es as [|e es IH]; intros db S; simpl; [exact S|].
  apply IH. destruct e as [now|now q]; simpl.
  - apply schema_initialize, S.
  - apply schema_handle, S.
Qed.

(** X4. In every state the file can reach, through any starts of the server
    and any requests: user emails are pairwise distinct, wishlist ids are
    pairwise distinct, no user row has a NULL username or email, and no
    wishlist row has a NULL user_id, country_code or country_name. *)
Theorem schema_always_holds (es : list event) : schema_holds (run fresh_file es).
Proof.
  apply schema_run. split; simpl; discriminate.
Qed.

(** ** Writing, then listing *)

Lemma wishlist_get_listed (db : database) (rows : list wishlist_row)
    (userId : string) :
  wishlist db = Some rows ->
  listed db userId = order_by_added_date_desc (filter (user_id_is userId) rows)
  /\ wishlist_get db userId
     = (res_json (JArr (map item_json (listed db userId))), db).
Proof.
  intros Hw. unfold wishlist_get, listed, select_wishlist. rewrite Hw. auto.
Qed.

Lemma filter_map_same_test {A} (p : A -> bool) (f : A -> A) (l : list A) :
  (forall x, p (f x) = p x) -> filter p (map f l) = map f (filter p l).
Proof.
  intros H. induction l as [|x l IH]; simpl; [reflexivity|].
  rewrite H. destruct (p x); simpl; congruence.
Qed.

Lemma filter_swap {A} (p q : A -> bool) (l : list A) :
  filter p (filter q l) = filter q (filter p l).
Proof.
  induction l as [|x l IH]; simpl; [reflexivity|].
  destruct (p x) eqn:P, (q x) eqn:Q; simpl; rewrite ?P, ?Q, IH; reflexivity.
Qed.

Lemma insert_desc_map (f : wishlist_row -> wishlist_row) (r : wishlist_row)
    (l : list wishlist_row) :
  (forall x, w_added_date (f x) = w_added_date x) ->
  insert_desc (f r) (map f l) = map f (insert_desc r l).
Proof.
  intros H. induction l as [|x l IH]; simpl; [reflexivity|].
  rewrite !H. destruct (sql_leb _ _); simpl; congruence.
Qed.

Lemma order_by_map (f : wishlist_row -> wishlist_row) (l : list wishlist_row) :
  (forall x, w_added_date (f x) = w_added_date x) ->
  order_by_added_date_desc (map f l) = map f (order_by_added_date_desc l).
Proof.
  intros H. induction l as [|x l IH]; simpl; [reflexivity|].
  rewrite IH. apply insert_desc_map, H.
Qed.

Lemma insert_desc_head (r : wishlist_row) (l : list wishlist_row) :
  Forall (fun y => sql_leb (w_added_date y) (w_added_date r) = true) l ->
  insert_desc r l = r :: l.
Proof.
  destruct 1 as [|y l Hy _]; simpl; [reflexivity|]. rewrite Hy. reflexivity.
Qed.

Lemma insert_desc_filter (q : wishlist_row -> bool) (r : wishlist_row)
    (l : list wishlist_row) :
  StronglySorted added_date_ge l ->
  filter q (insert_desc r l)
  = if q r then insert_desc r (filter q l) else filter q l.
Proof.
  induction 1 as [|x l Hs IH Hx]; simpl.
  - destruct (q r); reflexivity.
  - destruct (sql_leb (w_added_date x) (w_added_date r)) eqn:EQ.
    + simpl. destruct (q r); [|reflexivity].
      symmetry. apply insert_desc_head.
      assert (Forall (fun y => sql_leb (w_added_date y) (w_added_date r) = true)
                (x :: l)) as F.
      { constructor; [exact EQ|].
        rewrite Forall_forall in Hx |- *. intros y Hy.
        eapply sql_leb_trans; [apply Hx, Hy|exact EQ]. }
      rewrite Forall_forall in F |- *. intros y Hy. apply F.
      apply (proj1 (filter_In q y (x :: l)) Hy).
    + simpl. rewrite IH.
      destruct (q x), (q r); simpl; rewrite ?EQ; reflexivity.
Qed.

Lemma order_by_filter (q : wishlist_row -> bool) (l : list wishlist_row) :
  order_by_added_date_desc (filter q l)
  = filter q (order_by_added_date_desc l).
Proof.
  induction l as [|r l IH]; simpl; [reflexivity|].
  rewrite (insert_desc_filter q r _ (order_by_sorted l)).
  destruct (q r); simpl; rewrite IH; reflexivity.
Qed.

Lemma order_by_newest (x : wishlist_row) (l : list wishlist_row) :
  Forall (fun r => sql_leb (w_added_date x) (w_added_date r) = false) l ->
  order_by_added_date_desc (l ++ [x])%list = x :: order_by_added_date_desc l.
Proof.
  induction 1 as [|r l Hr _ IH]; simpl; [reflexivity|].
  rewrite IH. simpl. rewrite Hr. reflexivity.
Qed.

Lemma listed_user (db : database) (userId : string) (r : wishlist_row) :
  In r (listed db userId) -> user_id_is userId r = true.
Proof.
  unfold listed, select_wishlist. destruct (wishlist db) as [rows|]; [|intros []].
  intros H. apply (Permutation_in _ (order_by_perm _)) in H.
  apply filter_In in H. tauto.
Qed.

(** X5. PUT /api/wishlist/:userId/:countryCode, then GET
    /api/wishlist/:userId: the list is the one a GET before the PUT gives, in
    the same order, with the item of that country now carrying the body's
    rating and notes. *)
Theorem wishlist_put_then_get
    (db : database) (rows : list wishlist_row) (userId countryCode : string)
    (b : req_body) :
  wishlist db = Some rows ->
  wishlist_get (snd (wishlist_put db userId countryCode b)) userId
  = (res_json
       (JArr (map item_json
                (map (fun r =>
                        if country_is countryCode r
                        then set_rating_notes (integer_affinity (bind (rating b)))
                               (text_affinity (bind (notes b))) r
                        else r)
                   (listed db userId)))),
     snd (wishlist_put db userId countryCode b)).
Proof.
  intros Hw.
  destruct (wishlist_get_listed db rows userId Hw) as [L _].
  unfold wishlist_put, update_wishlist. rewrite Hw.
  cbn [snd].
  match goal with |- wishlist_get ?d _ = _ => set (db' := d) end.
  destruct (wishlist_get_listed db' _ userId eq_refl) as [L' G'].
  rewrite G'.
  match goal with
  | |- (res_json (JArr (map item_json ?x)), _)
       = (res_json (JArr (map item_json ?y)), _) =>
      assert (x = y) as ->; [|reflexivity]
  end.
  rewrite L', L.
  rewrite filter_map_same_test
    by (intros x; destruct (item_is userId countryCode x); reflexivity).
  rewrite order_by_map
    by (intros x; destruct (item_is userId countryCode x); reflexivity).
  apply map_ext_in. intros r Hr.
  apply (Permutation_in _ (order_by_perm _)) in Hr. apply filter_In in Hr.
  unfold item_is, country_is. rewrite (proj2 Hr). reflexivity.
Qed.

(** X6. DELETE /api/wishlist/:userId/:countryCode, then GET
    /api/wishlist/:userId: the list is the one a GET before the DELETE gives,
    in the same order, without the item of that country. *)
Theorem wishlist_delete_then_get
    (db : database) (rows : list wishlist_row) (userId countryCode : string) :
  wishlist db = Some rows ->
  wishlist_get (snd (wishlist_delete db userId countryCode)) userId
  = (res_json
       (JArr (map item_json
                (filter (fun r => negb (country_is countryCode r))
                   (listed db userId)))),
     snd (wishlist_delete db userId countryCode)).
Proof.
  intros Hw.
  destruct (wishlist_get_listed db rows userId Hw) as [L _].
  unfold wishlist_delete, delete_wishlist. rewrite Hw.
  cbn [snd].
  match goal with |- wishlist_get ?d _ = _ => set (db' := d) end.
  destruct (wishlist_get_listed db' _ userId eq_refl) as [L' G'].
  rewrite G'.
  match goal with
  | |- (res_json (JArr (map item_json ?x)), _)
       = (res_json (JArr (map item_json ?y)), _) =>
      assert (x = y) as ->; [|reflexivity]
  end.
  rewrite L', L.
  rewrite filter_swap, <- order_by_filter. f_equal.
  apply filter_ext_in. intros r Hr. apply filter_In in Hr.
  unfold item_is, country_is. rewrite (proj2 Hr). reflexivity.
Qed.

Lemma wishlist_post_inv (db db' : database) (userId : string) (b : req_body)
    (now : string) (resp : response) :
  wishlist_post db userId b now = (resp, db') ->
  status resp = 200 \/ (exists id, created_id resp = Some id) ->
  exists rows id,
    wishlist db = Some rows
    /\ key_taken rows (integer_affinity (SqlText userId))
         (text_affinity (bind (country_code b))) = false
    /\ id = next_rowid w_id rows (seq_wishlist db)
    /\ created_id resp = Some id
    /\ db' = set_wishlist db
               (rows ++ [mk_item id (integer_affinity (SqlText userId))
                           (text_affinity (bind (country_code b)))
                           (text_affinity (bind (country_name b)))
                           (integer_affinity (bind (js_or (rating b) (JNum 0))))
                           (text_affinity (bind (js_or (notes b) (JStr ""))))
                           (SqlText now)])%list id.
Proof.
  unfold wishlist_post.
  destruct (insert_wishlist _ _ _ _ _ _ _) as [e|[id db1]] eqn:EQ.
  - intros H [Hs|[id Hid]]; inversion H; subst; discriminate.
  - intros H _. inversion H; subst. clear H.
    apply insert_wishlist_inv in EQ. destruct EQ as [rows [Hw [K [Hid ->]]]].
    exists rows, id. auto.
Qed.

Lemma filter_user_snoc (userId : string) (rows : list wishlist_row)
    (r : wishlist_row) :
  filter (user_id_is userId) (rows ++ [r])%list
  = (filter (user_id_is userId) rows
       ++ (if user_id_is userId r then [r] else []))%list.
Proof. rewrite filter_app. reflexivity. Qed.


Lemma user_id_is_own (userId : string) (r : wishlist_row) :
  w_user_id r = integer_affinity (SqlText userId) -> user_id_is userId r = true.
Proof.
  unfold user_id_is. intros ->.
  apply sql_equal_refl, integer_affinity_text_not_null.
Qed.

(** X7. POST /api/wishlist/:userId, then GET /api/wishlist/:userId: the
    created row has the path's user id as the INTEGER column takes it (the
    integer [n] when the path is [n] written in decimal), the body's country
    code and name as the TEXT columns take them (a string as it is), the
    clock's added date and the id the POST reported; the list is the one a
    GET before the POST gives plus that row; and when every item listed
    before is strictly older than the new one, the new one comes first. *)
Theorem wishlist_post_then_get
    (db db' : database) (userId : string) (b : req_body) (now : string)
    (resp : response) :
  wishlist_post db userId b now = (resp, db') ->
  status resp = 200 ->
  exists row,
    newest_item db' = Some row
    /\ w_user_id row = integer_affinity (SqlText userId)
    /\ (forall n, in_int64 n = true -> userId = decimal n ->
                  w_user_id row = SqlInt n)
    /\ w_country_code row = text_affinity (bind (country_code b))
    /\ (forall code, country_code b = JStr code ->
                     w_country_code row = SqlText code)
    /\ w_country_name row = text_affinity (bind (country_name b))
    /\ (forall name, country_name b = JStr name ->
                     w_country_name row = SqlText name)
    /\ w_added_date row = SqlText now
    /\ created_id resp = Some (w_id row)
    /\ wishlist_get db' userId
       = (res_json (JArr (map item_json (listed db' userId))), db')
    /\ Permutation (listed db' userId) (row :: listed db userId)
    /\ (Forall (fun r => sql_leb (SqlText now) (w_added_date r) = false)
          (listed db userId) ->
        listed db' userId = row :: listed db userId).
Proof.
  intros H Hs.
  destruct (wishlist_post_inv _ _ _ _ _ _ H (or_introl Hs))
    as [rows [id [Hw [_ [_ [Hid ->]]]]]].
  eexists. split; [apply newest_item_set_wishlist|].
  cbn [w_user_id w_country_code w_country_name w_added_date w_id].
  split; [reflexivity|].
  split; [intros n R ->; apply integer_affinity_decimal, R|].
  split; [reflexivity|].
  split; [intros code ->; reflexivity|].
  split; [reflexivity|].
  split; [intros name ->; reflexivity|].
  split; [reflexivity|].
  split; [exact Hid|].
  match goal with |- wishlist_get ?d _ = _ /\ _ => set (db' := d) end.
  destruct (wishlist_get_listed db' _ userId eq_refl) as [L' G'].
  destruct (wishlist_get_listed db rows userId Hw) as [L _].
  split; [exact G'|].
  rewrite L', L, filter_user_snoc, user_id_is_own by reflexivity.
  split.
  - eapply perm_trans; [apply order_by_perm|].
    eapply perm_trans; [apply Permutation_sym, Permutation_cons_append|].
    apply perm_skip, Permutation_sym, order_by_perm.
  - intros F. apply order_by_newest.
    apply (Permutation_Forall (order_by_perm _)) in F. exact F.
Qed.

(** ** One user's list and the requests of others *)

Lemma wishlist_post_failed (db db' : database) (userId : string) (b : req_body)
    (now : string) (resp : response) :
  wishlist_post db userId b now = (resp, db') -> status resp <> 200 -> db' = db.
Proof.
  unfold wishlist_post.
  destruct (insert_wishlist _ _ _ _ _ _ _) as [e|[id db1]];
    intros H S; inversion H; subst; [reflexivity|].
  exfalso. apply S. reflexivity.
Qed.

Lemma filter_map_fixed {A} (p : A -> bool) (f : A -> A) (l : list A) :
  (forall x, p (f x) = p x) -> (forall x, p x = true -> f x = x) ->
  filter p (map f l) = filter p l.
Proof.
  intros H1 H2. induction l as [|x l IH]; simpl; [reflexivity|].
  rewrite H1. destruct (p x) eqn:P; [rewrite (H2 x P)|]; congruence.
Qed.

Lemma filter_filter_implied {A} (p q : A -> bool) (l : list A) :
  (forall x, p x = true -> q x = true) -> filter p (filter q l) = filter p l.
Proof.
  intros H. induction l as [|x l IH]; simpl; [reflexivity|].
  destruct (q x) eqn:Q; simpl.
  - rewrite IH. reflexivity.
  - destruct (p x) eqn:P; [rewrite (H x P) in Q; discriminate|exact IH].
Qed.

Lemma two_users (u v : string) (n m : Z) (r : wishlist_row) :
  integer_affinity (SqlText u) = SqlInt n ->
  integer_affinity (SqlText v) = SqlInt m -> n <> m ->
  user_id_is v r = true -> user_id_is u r = false.
Proof.
  unfold user_id_is. intros -> -> D V.
  destruct (sql_equal (w_user_id r) (SqlInt n)) eqn:U; [|reflexivity].
  rewrite sql_equal_sym in U. pose proof (sql_equal_trans _ _ _ U V) as B.
  rewrite sql_equal_integers in B. apply Z.eqb_eq in B. contradiction.
Qed.

Lemma listed_same_rows (db db' : database) (rows rows' : list wishlist_row)
    (userId : string) :
  wishlist db = Some rows -> wishlist db' = Some rows' ->
  filter (user_id_is userId) rows' = filter (user_id_is userId) rows ->
  fst (wishlist_get db' userId) = fst (wishlist_get db userId).
Proof.
  intros Hw Hw' EQ. unfold wishlist_get, select_wishlist.
  rewrite Hw, Hw', EQ. reflexivity.
Qed.

Lemma other_user_untouched
    (db : database) (now : string) (q : request) (other : string) :
  (forall userId, written_user q = Some userId ->
                  forall r, user_id_is userId r = true ->
                            user_id_is other r = false) ->
  fst (wishlist_get (snd (handle db now q)) other)
  = fst (wishlist_get db other).
Proof.
  intros D.
  destruct q as [id|b|userId|userId b|userId countryCode b|userId countryCode];
    cbn [handle written_user] in *.
  - unfold users_get. destruct (select_user db id); reflexivity.
  - unfold users_post.
    destruct (insert_user _ _ _ _) as [e|[id db']] eqn:EQ; [reflexivity|].
    apply insert_user_inv in EQ. destruct EQ as [rows [_ [_ [_ ->]]]].
    unfold wishlist_get, select_wishlist. cbn [snd wishlist set_users].
    destruct (wishlist db); reflexivity.
  - unfold wishlist_get at 2. destruct (select_wishlist db userId); reflexivity.
  - specialize (D userId eq_refl).
    destruct (wishlist_post db userId b now) as [resp db'] eqn:P.
    destruct (Z.eqb (status resp) 200) eqn:S.
    + apply Z.eqb_eq in S.
      destruct (wishlist_post_inv _ _ _ _ _ _ P (or_introl S))
        as [rows [id [Hw [_ [_ [_ ->]]]]]].
      cbn [snd]. eapply listed_same_rows; [exact Hw|reflexivity|].
      rewrite filter_user_snoc, D; [apply app_nil_r|].
      apply user_id_is_own. reflexivity.
    + apply Z.eqb_neq in S.
      rewrite (wishlist_post_failed _ _ _ _ _ _ P S). reflexivity.
  - specialize (D userId eq_refl). unfold wishlist_put, update_wishlist.
    destruct (wishlist db) as [rows|] eqn:Hw; [|reflexivity].
    cbn [snd]. eapply listed_same_rows; [exact Hw|reflexivity|].
    apply filter_map_fixed; intros r.
    + destruct (item_is userId countryCode r); reflexivity.
    + intros V. unfold item_is.
      destruct (user_id_is userId r) eqn:U; [|reflexivity].
      rewrite (D r U) in V. discriminate V.
  - specialize (D userId eq_refl). unfold wishlist_delete, delete_wishlist.
    destruct (wishlist db) as [rows|] eqn:Hw; [|reflexivity].
    cbn [snd]. eapply listed_same_rows; [exact Hw|reflexivity|].
    apply filter_filter_implied. intros r V.
    unfold item_is.
    destruct (user_id_is userId r) eqn:U; [|reflexivity].
    rewrite (D r U) in V. discriminate V.
Qed.

(** X8. No request changes what GET /api/wishlist/:userId answers for a user
    other than the one whose wishlist the request writes to: for a user with
    integer id m, a POST, PUT or DELETE under an integer id other than m, like
    any request to /api/users and any GET, leaves that answer as it was. *)
Theorem wishlist_of_other_user_untouched
    (db : database) (now : string) (q : request) (other : string) (m : Z) :
  integer_affinity (SqlText other) = SqlInt m ->
  (forall userId, written_user q = Some userId ->
                  exists n, integer_affinity (SqlText userId) = SqlInt n
                            /\ n <> m) ->
  fst (wishlist_get (snd (handle db now q)) other)
  = fst (wishlist_get db other).
Proof.
  intros Hm D. apply other_user_untouched.
  intros userId W r. destruct (D userId W) as [n [Hn Hne]].
  apply (two_users other userId m n r Hm Hn). congruence.
Qed.

(** ** Counts, ids and undoing *)

(** X9. In every state the file can reach, a PUT or a DELETE for a (user id,
    country code) pair that a row holds changes exactly one row: the PUT
    answers [{ updated: 1 }] and the DELETE answers [{ deleted: 1 }]. *)
Theorem existing_item_changes_once
    (es : list event) (rows : list wishlist_row) (userId countryCode : string)
    (b : req_body) (r : wishlist_row) :
  wishlist (run fresh_file es) = Some rows ->
  In r rows -> item_is userId countryCode r = true ->
  fst (wishlist_put (run fresh_file es) userId countryCode b)
  = res_json (JObj [("updated", JVal (JNum 1))])
  /\ fst (wishlist_delete (run fresh_file es) userId countryCode)
     = res_json (JObj [("deleted", JVal (JNum 1))]).
Proof.
  intros Hw Hr Hit.
  assert (count_rows (item_is userId countryCode) rows = 1) as C.
  { pose proof (wishlist_key_unique _ (constraints_run es _ constraints_fresh)
                  rows Hw) as U.
    pose proof (at_most_one_of_a_kind same_entry (item_is userId countryCode)
                  rows U (item_is_same_entry userId countryCode)) as M.
    assert (1 <= List.length (filter (item_is userId countryCode) rows))%nat as L.
    { apply at_least_one, existsb_exists. eauto. }
    unfold count_rows. lia. }
  unfold wishlist_put, update_wishlist, wishlist_delete, delete_wishlist.
  rewrite Hw, C. auto.
Qed.

Lemma seq_wishlist_step (db : database) (e : event) :
  seq_wishlist db <= seq_wishlist (step db e).
Proof.
  destruct e as [now|now q]; simpl.
  - unfold initialize, insert_demo_user.
    assert (seq_wishlist (create_wishlist_table (create_users_table db))
            = seq_wishlist db) as EQ.
    { unfold create_wishlist_table, create_users_table.
      destruct (users db); destruct (wishlist _); reflexivity. }
    destruct (users _); [|lia].
    destruct (_ || _)%bool; cbn [seq_wishlist set_users]; lia.
  - destruct q as [id|b|userId|userId b|userId countryCode b|userId countryCode];
      simpl.
    + unfold users_get. destruct (select_user db id); simpl; lia.
    + unfold users_post.
      destruct (insert_user _ _ _ _) as [e|[id db']] eqn:EQ; simpl; [lia|].
      apply insert_user_inv in EQ. destruct EQ as [rows [_ [_ [_ ->]]]].
      simpl. lia.
    + unfold wishlist_get. destruct (select_wishlist db userId); simpl; lia.
    + unfold wishlist_post.
      destruct (insert_wishlist _ _ _ _ _ _ _) as [e|[id db']] eqn:EQ; simpl;
        [lia|].
      apply insert_wishlist_inv in EQ. destruct EQ as [rows [_ [_ [-> ->]]]].
      simpl. unfold next_rowid. lia.
    + unfold wishlist_put, update_wishlist.
      destruct (wishlist db); simpl; lia.
    + unfold wishlist_delete, delete_wishlist.
      destruct (wishlist db); simpl; lia.
Qed.

Lemma seq_wishlist_run (es : list event) :
  forall db, seq_wishlist db <= seq_wishlist (run db es).
Proof.
  induction es as [|e es IH]; intros db; [simpl; lia|].
  change (run db (e :: es)) with (run (step db e) es).
  pose proof (seq_wishlist_step db e). specialize (IH (step db e)). lia.
Qed.

(** X10. Wishlist ids are never reused: when a POST has created an item
    with some id, any POST that creates an item later, whatever was served in
    between (the first item may have been deleted), reports a larger id. *)
Theorem wishlist_ids_never_reused
    (db db1 db2 : database) (es : list event) (userId1 userId2 : string)
    (b1 b2 : req_body) (now1 now2 : string) (resp1 resp2 : response)
    (id1 id2 : Z) :
  wishlist_post db userId1 b1 now1 = (resp1, db1) ->
  created_id resp1 = Some id1 ->
  wishlist_post (run db1 es) userId2 b2 now2 = (resp2, db2) ->
  created_id resp2 = Some id2 ->
  id1 < id2.
Proof.
  intros P1 C1 P2 C2.
  destruct (wishlist_post_inv _ _ _ _ _ _ P1 (or_intror (ex_intro _ _ C1)))
    as [rows1 [i1 [_ [_ [_ [C1' E1]]]]]].
  destruct (wishlist_post_inv _ _ _ _ _ _ P2 (or_intror (ex_intro _ _ C2)))
    as [rows2 [i2 [_ [_ [N2 [C2' _]]]]]].
  assert (i1 = id1) as Ei1 by congruence.
  assert (i2 = id2) as Ei2 by congruence.
  pose proof (seq_wishlist_run es db1) as M.
  rewrite E1 in M at 1. cbn [seq_wishlist set_wishlist] in M.
  unfold next_rowid in N2. lia.
Qed.

(** X11. POST /api/wishlist/:userId followed by DELETE of the same user id
    and the country code the POST stored (the text the TEXT column made of
    the body's; the body's own when it is a string) undoes the insert: the DELETE answers [{ deleted: 1 }] and the rows of
    wishlist, like the users table, are what they were before the POST; only
    the rowid counter stays advanced. *)
Theorem wishlist_post_then_delete
    (db db' : database) (rows : list wishlist_row) (userId countryCode : string)
    (b : req_body) (now : string) (resp : response) :
  wishlist db = Some rows ->
  text_affinity (bind (country_code b)) = SqlText countryCode ->
  wishlist_post db userId b now = (resp, db') ->
  status resp = 200 ->
  wishlist_delete db' userId countryCode
  = (res_json (JObj [("deleted", JVal (JNum 1))]),
     {| users := users db; wishlist := Some rows;
        seq_users := seq_users db; seq_wishlist := seq_wishlist db' |}).
Proof.
  intros Hw Hc P S.
  destruct (wishlist_post_inv _ _ _ _ _ _ P (or_introl S))
    as [rows0 [id [Hw0 [K [_ [_ ->]]]]]].
  rewrite Hw in Hw0. inversion Hw0; subst rows0. clear Hw0.
  rewrite Hc in *.
  assert (forall r, In r rows -> item_is userId countryCode r = false) as No.
  { intros r Hr. rewrite <- item_is_spelled.
    destruct (_ && _)%bool eqn:T; [|reflexivity].
    apply andb_true_iff in T.
    assert (key_taken rows (integer_affinity (SqlText userId))
              (SqlText countryCode) = true) as K'
      by (apply key_taken_iff; exists r; tauto).
    congruence. }
  unfold wishlist_delete, delete_wishlist. cbn [wishlist set_wishlist].
  unfold count_rows. rewrite !filter_app.
  rewrite (filter_none (item_is userId countryCode) rows No).
  rewrite (filter_all (fun r => negb (item_is userId countryCode r)) rows)
    by (intros r Hr; rewrite (No r Hr); reflexivity).
  cbn [filter]. unfold item_is at 1 2.
  rewrite user_id_is_own by reflexivity.
  cbn [w_country_code]. rewrite sql_eqb_refl.
  cbn [andb negb app List.length Z.of_nat]. rewrite app_nil_r. reflexivity.
Qed.

(** ** The users table only grows *)

Lemma users_step_kept (db : database) (e : event) (rows : list user_row) :
  users db = Some rows ->
  exists more, users (step db e) = Some (rows ++ more)%list.
Proof.
  intros Hu. destruct e as [now|now q]; simpl.
  - unfold initialize, create_users_table. rewrite Hu.
    assert (users (create_wishlist_table db) = Some rows) as Hu'.
    { unfold create_wishlist_table. destruct (wishlist db); exact Hu. }
    unfold insert_demo_user. rewrite Hu'.
    destruct (_ || _)%bool; cbn [users set_users].
    + exists []. rewrite app_nil_r. reflexivity.
    + eexists. reflexivity.
  - destruct q as [id|b|userId|userId b|userId countryCode b|userId countryCode];
      simpl.
    + exists []. rewrite app_nil_r.
      unfold users_get. destruct (select_user db id); exact Hu.
    + unfold users_post.
      destruct (insert_user _ _ _ _) as [e|[id db']] eqn:EQ; simpl.
      * exists []. rewrite app_nil_r. exact Hu.
      * apply insert_user_inv in EQ. destruct EQ as [rows0 [Hu0 [_ [_ ->]]]].
        rewrite Hu in Hu0. inversion Hu0; subst rows0.
        eexists. reflexivity.
    + exists []. rewrite app_nil_r.
      unfold wishlist_get. destruct (select_wishlist db userId); exact Hu.
    + exists []. rewrite app_nil_r. unfold wishlist_post.
      destruct (insert_wishlist _ _ _ _ _ _ _) as [e|[id db']] eqn:EQ; simpl;
        [exact Hu|].
      apply insert_wishlist_inv in EQ. destruct EQ as [items [_ [_ [_ ->]]]].
      exact Hu.
    + exists []. rewrite app_nil_r. unfold wishlist_put, update_wishlist.
      destruct (wishlist db); exact Hu.
    + exists []. rewrite app_nil_r. unfold wishlist_delete, delete_wishlist.
      destruct (wishlist db); exact Hu.
Qed.

Lemma users_run_kept (es : list event) :
  forall (db : database) (rows : list user_row),
    users db = Some rows ->
    exists more, users (run db es) = Some (rows ++ more)%list.
Proof.
  induction es as [|e es IH]; intros db rows Hu.
  - exists []. rewrite app_nil_r. exact Hu.
  - change (run db (e :: es)) with (run (step db e) es).
    destruct (users_step_kept db e rows Hu) as [m1 H1].
    destruct (IH _ _ H1) as [m2 H2].
    exists (m1 ++ m2)%list. rewrite H2, app_assoc. reflexivity.
Qed.

(** X12. No start of the server and no request removes or changes a user:
    whatever happens to the file, the rows the users table held are still its
    first rows, unchanged and in the same order. *)
Theorem users_rows_are_kept
    (db : database) (es : list event) (rows : list user_row) :
  users db = Some rows ->
  exists more, users (run db es) = Some (rows ++ more)%list.
Proof. apply users_run_kept. Qed.


(** X13. Once db.js has run on a fresh file, whatever was served or
    restarted before and after, GET /api/users/1 answers 200 with the seed
    user: id 1, username 'demo', email 'demo@example.com', created at the
    first start. *)
Theorem demo_user_is_user_1 (es1 es2 : list event) (now0 : string) :
  exists created,
    users_get (run fresh_file (es1 ++ Startup now0 :: es2)) "1"
    = (res_json (JObj [("id", JVal (JNum 1)); ("username", JVal (JStr "demo"));
                       ("email", JVal (JStr "demo@example.com"));
                       ("created_at", JVal (JStr created))]),
       run fresh_file (es1 ++ Startup now0 :: es2)).
Proof.
  assert (forall es db,
             db = fresh_file
             \/ (exists t rest,
                    users db
                    = Some (mk_user 1 demo_username demo_email (SqlText t)
                              :: rest)) ->
             run db es = fresh_file
             \/ (exists t rest,
                    users (run db es)
                    = Some (mk_user 1 demo_username demo_email (SqlText t)
                              :: rest))) as Inv.
  { induction es as [|e es IH]; intros db H; [exact H|].
    change (run db (e :: es)) with (run (step db e) es). apply IH.
    destruct H as [->|[t [rest Hu]]].
    - destruct e as [now|now q]; cbn [step].
      + right. exists now, []. reflexivity.
      + left. apply handle_pristine. split; reflexivity.
    - right. destruct (users_step_kept db e _ Hu) as [more H].
      exists t, (rest ++ more)%list. exact H. }
  unfold run at 1 2. rewrite fold_left_app.
  change (fold_left step (Startup now0 :: es2) (fold_left step es1 fresh_file))
    with (run (step (run fresh_file es1) (Startup now0)) es2).
  assert (exists t rest,
             users (step (run fresh_file es1) (Startup now0))
             = Some (mk_user 1 demo_username demo_email (SqlText t) :: rest))
    as [t [rest H1]].
  { destruct (Inv es1 fresh_file (or_introl eq_refl)) as [->|[t [rest Hu]]].
    - exists now0, []. reflexivity.
    - destruct (users_step_kept _ (Startup now0) _ Hu) as [m1 H1].
      exists t, (rest ++ m1)%list. exact H1. }
  destruct (users_run_kept es2 _ _ H1) as [m2 H2].
  exists t. unfold users_get, select_user. rewrite H2.
  change "1" with (decimal 1).
  rewrite (integer_affinity_decimal 1 eq_refl). reflexivity.
Qed.

(** ** Repeating a write *)

Lemma set_rating_notes_twice (rt1 nt1 rt2 nt2 : sqlval) (r : wishlist_row) :
  set_rating_notes rt2 nt2 (set_rating_notes rt1 nt1 r)
  = set_rating_notes rt2 nt2 r.
Proof. reflexivity. Qed.

Lemma item_is_set_rating_notes (userId countryCode : string) (rt nt : sqlval)
    (r : wishlist_row) :
  item_is userId countryCode (set_rating_notes rt nt r)
  = item_is userId countryCode r.
Proof. reflexivity. Qed.

(** X14. The last PUT wins: a PUT made after another PUT for the same (user
    id, country code) gives the same response and leaves the same file as if
    the earlier one had not been made; in particular repeating a PUT changes
    nothing further. *)
Theorem wishlist_put_last_wins
    (db : database) (userId countryCode : string) (b1 b2 : req_body) :
  wishlist_put (snd (wishlist_put db userId countryCode b1)) userId countryCode b2
  = wishlist_put db userId countryCode b2.
Proof.
  unfold wishlist_put, update_wishlist.
  destruct (wishlist db) as [rows|] eqn:Hw; cbn [snd]; [|rewrite Hw; reflexivity].
  cbn [wishlist set_wishlist seq_wishlist users seq_users].
  set (f1 := fun r => if item_is userId countryCode r
                      then set_rating_notes (integer_affinity (bind (rating b1)))
                             (text_affinity (bind (notes b1))) r
                      else r).
  assert (forall r, item_is userId countryCode (f1 r)
                    = item_is userId countryCode r) as Hf.
  { intros r. unfold f1. destruct (item_is userId countryCode r) eqn:EQ;
      [apply EQ|exact EQ]. }
  set (f2 := fun r => if item_is userId countryCode r
                      then set_rating_notes (integer_affinity (bind (rating b2)))
                             (text_affinity (bind (notes b2))) r
                      else r).
  unfold count_rows. rewrite (filter_map_same_test _ f1 rows Hf), length_map.
  assert (map f2 (map f1 rows) = map f2 rows) as ->; [|reflexivity].
  rewrite map_map. apply map_ext. intros r. unfold f2. rewrite Hf. unfold f1.
  destruct (item_is userId countryCode r); reflexivity.
Qed.

(** X15. A DELETE repeated right after itself finds nothing left: it answers
    [{ deleted: 0 }] and the file stays as the first DELETE left it. *)
Theorem wishlist_delete_twice
    (db : database) (rows : list wishlist_row) (userId countryCode : string) :
  wishlist db = Some rows ->
  wishlist_delete (snd (wishlist_delete db userId countryCode))
    userId countryCode
  = (res_json (JObj [("deleted", JVal (JNum 0))]),
     snd (wishlist_delete db userId countryCode)).
Proof.
  intros Hw. unfold wishlist_delete at 2 3, delete_wishlist. rewrite Hw.
  cbn [snd].
  set (kept := filter (fun r => negb (item_is userId countryCode r)) rows).
  assert (forall r, In r kept -> item_is userId countryCode r = false) as No.
  { intros r Hr. apply filter_In in Hr. destruct Hr as [_ Hr].
    destruct (item_is userId countryCode r); [discriminate|reflexivity]. }
  unfold wishlist_delete, delete_wishlist. cbn [wishlist set_wishlist].
  unfold count_rows.
  rewrite (filter_none (item_is userId countryCode) kept No).
  rewrite (filter_all (fun r => negb (item_is userId countryCode r)) kept)
    by (intros r Hr; rewrite (No r Hr); reflexivity).
  reflexivity.
Qed.


(** X16. PUT applies no defaults: when the body has no rating (or gives
    null), every row of the (user id, country code) pair holds NULL as rating
    afterwards, and likewise for notes; POST would have stored 0 and the empty
    string. *)
Theorem wishlist_put_without_rating_stores_null
    (db : database) (rows : list wishlist_row) (userId countryCode : string)
    (b : req_body) :
  wishlist db = Some rows ->
  exists rows',
    wishlist (snd (wishlist_put db userId countryCode b)) = Some rows'
    /\ (supplied (rating b) = false \/ rating b = JNull ->
        forall r, In r rows' -> item_is userId countryCode r = true ->
                  w_rating r = SqlNull)
    /\ (supplied (notes b) = false \/ notes b = JNull ->
        forall r, In r rows' -> item_is userId countryCode r = true ->
                  w_notes r = SqlNull).
Proof.
  intros Hw. unfold wishlist_put, update_wishlist. rewrite Hw.
  cbn [snd wishlist set_wishlist]. eexists. split; [reflexivity|].
  assert (forall v, supplied v = false \/ v = JNull -> bind v = SqlNull) as N.
  { intros v [H|H]; [destruct v; try discriminate|rewrite H]; reflexivity. }
  split; intros H r Hr Hit; apply in_map_iff in Hr;
    destruct Hr as [r0 [Er _]]; subst r;
    destruct (item_is userId countryCode r0) eqn:EQ;
    try (rewrite EQ in Hit; discriminate Hit);
    cbn [w_rating w_notes set_rating_notes]; rewrite (N _ H); reflexivity.
Qed.

(** ** db.js on any file *)

(** X17. On any database file, whatever tables and rows it holds, running
    db.js twice leaves the same rows in users and in wishlist as running it
    once; both tables exist afterwards. *)
Theorem initialize_twice (db : database) (now now' : string) :
  users (initialize (initialize db now) now') = users (initialize db now)
  /\ wishlist (initialize (initialize db now) now')
     = wishlist (initialize db now)
  /\ users (initialize db now) <> None
  /\ wishlist (initialize db now) <> None.
Proof.
  assert (exists rows items,
             users (initialize db now) = Some rows
             /\ wishlist (initialize db now) = Some items
             /\ (username_taken rows demo_username
                 || email_taken rows demo_email)%bool = true)
    as [rows [items [Hu [Hw T]]]].
  { unfold initialize.
    set (d := create_wishlist_table (create_users_table db)).
    assert (exists rows items, users d = Some rows /\ wishlist d = Some items)
      as [rows [items [Hu Hw]]].
    { unfold d, create_wishlist_table, create_users_table.
      destruct (users db) as [rows|] eqn:U;
        destruct (wishlist db) as [items|] eqn:W;
        cbn [wishlist users set_users set_wishlist]; rewrite ?U, ?W;
        cbn [wishlist users set_users set_wishlist]; rewrite ?U, ?W; eauto. }
    unfold insert_demo_user. rewrite Hu.
    destruct (_ || _)%bool eqn:T; cbn [users wishlist set_users].
    - exists rows, items. auto.
    - eexists _, items. split; [reflexivity|]. split; [exact Hw|].
      apply orb_true_iff. left. apply username_taken_iff.
      rewrite map_app. apply in_or_app. right. left. reflexivity. }
  remember (initialize db now) as d1 eqn:Ed. clear Ed.
  unfold initialize, create_users_table. rewrite Hu.
  unfold create_wishlist_table. rewrite Hw.
  unfold insert_demo_user. rewrite Hu, T. cbn [users wishlist set_users].
  rewrite Hw. repeat split; discriminate.
Qed.


End WithEngine.

(* ================================================================== *)
(** * The handlers at work *)
(* ================================================================== *)

#[export] Existing Instance sample_engine.

(** ** Numbers in texts and texts of numbers *)

Example texts_as_user_ids :
  integer_affinity (SqlText "1") = SqlInt 1
  /\ integer_affinity (SqlText "1.0") = SqlInt 1
  /\ integer_affinity (SqlText "1e0") = SqlInt 1
  /\ integer_affinity (SqlText " 01 ") = SqlInt 1
  /\ integer_affinity (SqlText "1e2") = SqlInt 100
  /\ integer_affinity (SqlText "1.5") = SqlReal (3 # 2)
  /\ integer_affinity (SqlText "one") = SqlText "one"
  /\ integer_affinity (SqlText "") = SqlText "".
Proof. repeat split. Qed.

Example numbers_in_text_columns :
  text_affinity (bind (JNum 7)) = SqlText "7"
  /\ text_affinity (bind (JNum (10 ^ 20))) = SqlText "1.0e+20"
  /\ text_affinity (bind (JNum (2 ^ 31))) = SqlText "2147483648.0"
  /\ text_affinity (bind (JFloat (1 # 2))) = SqlText "0.5"
  /\ text_affinity (bind (JBool true)) = SqlText "1"
  /\ text_affinity (bind JUndefined) = SqlNull.
Proof. repeat split. Qed.

Example integers_back_in_javascript :
  of_sql (integer_affinity (SqlText "9007199254740993"))
  = JNum 9007199254740992.
Proof. reflexivity. Qed.

(** ** The wishlist *)

Lemma wishlist_post_duplicate_rejected_witness :
  wishlist with_two_items = Some [france_item; japan_item]
  /\ exists err,
      reported_error with_two_items t2 (PostWishlist "1.0" france) = Some err
      /\ wishlist_post with_two_items "1.0" france t2
         = (res_status_json 400 (error_body (message err)), with_two_items)
      /\ (is_null (bind (country_code france)) = false ->
          is_null (bind (country_name france)) = false ->
          err = UniqueFailed "wishlist.user_id, wishlist.country_code").
Proof.
  split; [reflexivity|].
  apply (proj1 (wishlist_post_duplicate_rejected (E := sample_engine))
           with_two_items
           [france_item; japan_item] "1.0" france t2 france_item);
    [reflexivity | left; reflexivity | reflexivity | reflexivity].
Defined.

Example duplicate_france :
  wishlist_post with_two_items "1" france t2
  = (res_status_json 400
       (error_body
          "SQLITE_CONSTRAINT: UNIQUE constraint failed: wishlist.user_id, wishlist.country_code"),
     with_two_items)
  /\ wishlist_post with_two_items "1.0" france t2
     = wishlist_post with_two_items "1" france t2
  /\ wishlist_post with_two_items "1e0" france t2
     = wishlist_post with_two_items "1" france t2.
Proof. repeat split. Qed.

Lemma wishlist_get_rows_of_user_by_date_desc_witness :
  wishlist with_two_items = Some [france_item; japan_item]
  /\ exists result,
      wishlist_get with_two_items "1.0"
      = (res_json (JArr (map item_json result)), with_two_items)
      /\ Permutation result
           (filter (fun r => sql_equal (w_user_id r)
                               (integer_affinity (SqlText "1.0")))
              [france_item; japan_item])
      /\ (forall r, In r result <->
                    In r [france_item; japan_item]
                    /\ sql_equal (w_user_id r)
                         (integer_affinity (SqlText "1.0")) = true)
      /\ (forall n k r,
             integer_affinity (SqlText "1.0") = SqlInt n ->
             w_user_id r = SqlInt k ->
             (In r result <-> In r [france_item; japan_item] /\ k = n))
      /\ StronglySorted added_date_ge result.
Proof.
  split; [reflexivity|].
  exact (wishlist_get_rows_of_user_by_date_desc (E := sample_engine)
           with_two_items
           [france_item; japan_item] "1.0" eq_refl).
Defined.

Example wishlist_get_newest_first :
  fst (wishlist_get with_two_items "1")
  = res_json (JArr [item_json japan_item; item_json france_item])
  /\ fst (wishlist_get with_two_items "1.0")
     = res_json (JArr [item_json japan_item; item_json france_item])
  /\ fst (wishlist_get with_two_items "2") = res_json (JArr []).
Proof. repeat split. Qed.

Lemma wishlist_post_defaults_witness :
  wishlist_post started "1" france t1
  = (france_created, set_wishlist started [france_item] 1)
  /\ (exists row,
         newest_item (set_wishlist started [france_item] 1) = Some row
         /\ w_rating row = SqlInt 0 /\ w_notes row = SqlText ""
         /\ property "rating" (body france_created) = Some (JVal (JNum 0))
         /\ property "notes" (body france_created) = Some (JVal (JStr "")))
  /\ wishlist_post (set_wishlist started [france_item] 1) "1" japan t2
     = (japan_created, set_wishlist started [france_item; japan_item] 2)
  /\ (exists row,
         newest_item (set_wishlist started [france_item; japan_item] 2)
         = Some row
         /\ w_rating row = SqlInt 5 /\ w_notes row = SqlText "sakura"
         /\ property "rating" (body japan_created) = Some (JVal (JNum 5))
         /\ property "notes" (body japan_created)
            = Some (JVal (JStr "sakura"))).
Proof.
  split; [reflexivity|]. split; [|split; [reflexivity|]].
  - destruct (wishlist_post_defaults (E := sample_engine) started
                (set_wishlist started [france_item] 1) "1" france t1
                france_created eq_refl eq_refl)
      as [row [N [R [T _]]]].
    exists row. split; [exact N|].
    destruct (R eq_refl) as [R1 R2]. destruct (T eq_refl) as [T1 T2]. auto.
  - destruct (wishlist_post_defaults (E := sample_engine)
                (set_wishlist started [france_item] 1)
                (set_wishlist started [france_item; japan_item] 2)
                "1" japan t2 japan_created eq_refl eq_refl)
      as [row [N [_ [_ [R T]]]]].
    exists row. split; [exact N|].
    destruct (R 5 eq_refl eq_refl) as [R1 R2].
    destruct (T "sakura" eq_refl) as [T1 T2]. auto.
Defined.

Lemma wishlist_delete_missing_item_witness :
  wishlist_delete with_two_items "1" "DE"
  = (res_json (JObj [("deleted", JVal (JNum 0))]), with_two_items).
Proof.
  apply (wishlist_delete_missing_item (E := sample_engine) with_two_items
           [france_item; japan_item] "1" "DE" eq_refl).
  intros r [<-|[<-|[]]]; reflexivity.
Defined.

Example delete_france :
  wishlist_delete with_two_items "1" "FR"
  = (res_json (JObj [("deleted", JVal (JNum 1))]),
     set_wishlist with_two_items [japan_item] 2)
  /\ wishlist_delete with_two_items "1.0" "FR"
     = wishlist_delete with_two_items "1" "FR"
  /\ wishlist_delete with_two_items "1" "fr"
     = (res_json (JObj [("deleted", JVal (JNum 0))]), with_two_items).
Proof. repeat split. Qed.

Lemma wishlist_put_sets_rating_and_notes_only_witness :
  wishlist with_two_items = Some [france_item; japan_item]
  /\ exists rows',
      fst (wishlist_put with_two_items "1.0" "FR" four_stars)
      = res_json
          (JObj [("updated",
                  JVal (JNum (count_rows
                                (fun r =>
                                   (sql_equal (w_user_id r)
                                      (integer_affinity (SqlText "1.0"))
                                    && sql_equal (w_country_code r)
                                         (SqlText "FR"))%bool)
                                [france_item; japan_item])))])
      /\ snd (wishlist_put with_two_items "1.0" "FR" four_stars)
         = {| users := users with_two_items; wishlist := Some rows';
              seq_users := seq_users with_two_items;
              seq_wishlist := seq_wishlist with_two_items |}
      /\ List.length rows' = List.length [france_item; japan_item]
      /\ (forall (i : nat) (r : wishlist_row),
           nth_error [france_item; japan_item] i = Some r ->
           exists r',
             nth_error rows' i = Some r'
             /\ if (sql_equal (w_user_id r) (integer_affinity (SqlText "1.0"))
                    && sql_equal (w_country_code r) (SqlText "FR"))%bool
                then w_id r' = w_id r
                     /\ w_user_id r' = w_user_id r
                     /\ w_country_code r' = w_country_code r
                     /\ w_country_name r' = w_country_name r
                     /\ w_added_date r' = w_added_date r
                     /\ w_rating r' = integer_affinity (bind (rating four_stars))
                     /\ w_notes r' = text_affinity (bind (notes four_stars))
                else r' = r)
      /\ (forall n, rating four_stars = JNum n -> safe_integer n = true ->
                    integer_affinity (bind (rating four_stars)) = SqlInt n)
      /\ (forall s, notes four_stars = JStr s ->
                    text_affinity (bind (notes four_stars)) = SqlText s).
Proof.
  split; [reflexivity|].
  exact (wishlist_put_sets_rating_and_notes_only (E := sample_engine)
           with_two_items
           [france_item; japan_item] "1.0" "FR" four_stars eq_refl).
Defined.

Example four_stars_for_france :
  wishlist_put with_two_items "1" "FR" four_stars
  = (res_json (JObj [("updated", JVal (JNum 1))]),
     set_wishlist with_two_items
       [set_rating_notes (SqlInt 4) (SqlText "spring") france_item; japan_item]
       2)
  /\ wishlist_put with_two_items "1.0" "FR" four_stars
     = wishlist_put with_two_items "1" "FR" four_stars
  /\ wishlist_put with_two_items "1" "FR" hundred
     = (res_json (JObj [("updated", JVal (JNum 1))]),
        set_wishlist with_two_items
          [set_rating_notes (SqlInt 100) (SqlText "a round number") france_item;
           japan_item]
          2).
Proof. repeat split. Qed.

Lemma wishlist_put_missing_item_witness :
  wishlist_put with_two_items "1" "DE" four_stars
  = (res_json (JObj [("updated", JVal (JNum 0))]), with_two_items).
Proof.
  apply (wishlist_put_missing_item (E := sample_engine) with_two_items
           [france_item; japan_item] "1" "DE" four_stars eq_refl).
  intros r [<-|[<-|[]]]; reflexivity.
Defined.

(** ** Failing writes *)

Lemma write_failure_is_400_witness :
  handle started t1 (PostUser no_body)
  = (res_status_json 400
       (error_body "SQLITE_CONSTRAINT: NOT NULL constraint failed: users.username"),
     started)
  /\ handle started t1 (PostUser demo_again)
     = (res_status_json 400
          (error_body "SQLITE_CONSTRAINT: UNIQUE constraint failed: users.email"),
        started)
  /\ handle with_two_items t2 (PostWishlist "1.0" france)
     = (res_status_json 400
          (error_body
             "SQLITE_CONSTRAINT: UNIQUE constraint failed: wishlist.user_id, wishlist.country_code"),
        with_two_items)
  /\ handle fresh_file t1 (PutWishlist "1" "FR" four_stars)
     = (res_status_json 400 (error_body "SQLITE_ERROR: no such table: wishlist"),
        fresh_file)
  /\ handle fresh_file t1 (DeleteWishlist "1" "FR")
     = (res_status_json 400 (error_body "SQLITE_ERROR: no such table: wishlist"),
        fresh_file).
Proof.
  repeat apply conj.
  - apply (write_failure_is_400 (E := sample_engine) started t1
             (PostUser no_body)
             (NotNullFailed "users.username")); reflexivity.
  - apply (write_failure_is_400 (E := sample_engine) started t1
             (PostUser demo_again)
             (UniqueFailed "users.email")); reflexivity.
  - apply (write_failure_is_400 (E := sample_engine) with_two_items t2
             (PostWishlist "1.0" france)
             (UniqueFailed "wishlist.user_id, wishlist.country_code"));
      reflexivity.
  - apply (write_failure_is_400 (E := sample_engine) fresh_file t1
             (PutWishlist "1" "FR" four_stars)
             (NoSuchTable "wishlist")); reflexivity.
  - apply (write_failure_is_400 (E := sample_engine) fresh_file t1
             (DeleteWishlist "1" "FR")
             (NoSuchTable "wishlist")); reflexivity.
Defined.

(** ** Users *)

Lemma users_get_row_or_empty_witness :
  users (run fresh_file [Startup t0]) = Some [demo_row]
  /\ users_get (run fresh_file [Startup t0]) "1"
     = (res_json (JObj [("id", JVal (JNum 1)); ("username", JVal (JStr "demo"));
                        ("email", JVal (JStr "demo@example.com"));
                        ("created_at", JVal (JStr t0))]),
        run fresh_file [Startup t0])
  /\ users_get (run fresh_file [Startup t0]) "1.0"
     = (res_json (user_json demo_row), run fresh_file [Startup t0])
  /\ users_get (run fresh_file [Startup t0]) "7"
     = (res_json (JObj []), run fresh_file [Startup t0])
  /\ users_get (run fresh_file [Startup t0]) "one"
     = (res_json (JObj []), run fresh_file [Startup t0]).
Proof.
  split; [reflexivity|].
  destruct (users_get_row_or_empty (E := sample_engine) [Startup t0]
              [demo_row] "1" eq_refl)
    as [_ [_ H1]].
  destruct (users_get_row_or_empty (E := sample_engine) [Startup t0]
              [demo_row] "1.0" eq_refl)
    as [Hrow _].
  destruct (users_get_row_or_empty (E := sample_engine) [Startup t0]
              [demo_row] "7" eq_refl)
    as [_ [_ H7]].
  destruct (users_get_row_or_empty (E := sample_engine) [Startup t0]
              [demo_row] "one" eq_refl)
    as [_ [Hnone _]].
  repeat apply conj.
  - apply (proj1 (H1 1 eq_refl) demo_row); [left; reflexivity|reflexivity].
  - apply (Hrow demo_row); [left; reflexivity|reflexivity].
  - apply (proj2 (H7 7 eq_refl)). intros r [<-|[]]. discriminate.
  - apply Hnone. intros r [<-|[]]. reflexivity.
Defined.

(** ** The countries proxy *)

Lemma countries_proxy_pass_through_or_fixed_error_witness :
  countries_all sample_source = {| status := 200; body := JArr [peru_data] |}
  /\ countries_search sample_source "peru"
     = {| status := 200; body := JArr [peru_data] |}
  /\ countries_search sample_source "atlantis"
     = {| status := 404;
          body := JObj [("error", JVal (JStr "Country not found"))] |}
  /\ countries_region sample_source "mu"
     = {| status := 404;
          body := JObj [("error", JVal (JStr "Region not found"))] |}
  /\ countries_all (fun _ => Thrown)
     = {| status := 500;
          body := JObj [("error", JVal (JStr "Failed to fetch countries"))] |}.
Proof.
  destruct (countries_proxy_pass_through_or_fixed_error (E := sample_engine)
              sample_source
              "peru" "mu") as [A [_ [S [_ [_ R]]]]].
  destruct (countries_proxy_pass_through_or_fixed_error (E := sample_engine)
              sample_source
              "atlantis" "mu") as [_ [_ [_ [S' _]]]].
  destruct (countries_proxy_pass_through_or_fixed_error (E := sample_engine)
              (fun _ => Thrown)
              "peru" "mu") as [_ [A' _]].
  repeat apply conj.
  - apply A. reflexivity.
  - apply S. reflexivity.
  - apply S'. reflexivity.
  - apply R. reflexivity.
  - apply A'. reflexivity.
Defined.

(** ** Initialisation *)

Example initialize_again_advances_only_the_counter :
  initialize with_two_items t2
  = {| users := users with_two_items; wishlist := wishlist with_two_items;
       seq_users := 2; seq_wishlist := 2 |}.
Proof. reflexivity. Qed.


(** ** Creating users and items *)

Lemma users_post_then_get_witness :
  users_post started ana t1
  = (ana_created, set_users started [demo_row; ana_row] 2)
  /\ users_get (set_users started [demo_row; ana_row] 2) "2"
     = (res_json (JObj [("id", JVal (JNum 2)); ("username", JVal (JStr "ana"));
                        ("email", JVal (JStr "ana@example.com"));
                        ("created_at", JVal (JStr t1))]),
        set_users started [demo_row; ana_row] 2).
Proof.
  split; [reflexivity|].
  destruct (users_post_then_get (E := sample_engine) started
              (set_users started [demo_row; ana_row] 2) ana t1 ana_created
              eq_refl eq_refl) as [id [C [G _]]].
  cbv in C. inversion C; subst id. exact (G eq_refl).
Defined.

Example a_number_as_username :
  users (snd (users_post started big t1))
  = Some [demo_row;
          mk_user 2 (SqlText "1.0e+20") (SqlText "big@example.com")
            (SqlText t1)]
  /\ fst (users_get (snd (users_post started big t1)) "2")
     = res_json (JObj [("id", JVal (JNum 2));
                       ("username", JVal (JStr "1.0e+20"));
                       ("email", JVal (JStr "big@example.com"));
                       ("created_at", JVal (JStr t1))]).
Proof. repeat split. Qed.

Lemma users_post_succeeds_iff_witness :
  status (fst (users_post started ana t1)) = 200
  /\ (status (fst (users_post started no_body t1)) = 400
      /\ snd (users_post started no_body t1) = started)
  /\ status (fst (users_post started demo_again t1)) = 400
  /\ snd (users_post started demo_again t1) = started.
Proof.
  split; [|split].
  - apply (proj1 (users_post_succeeds_iff started ana t1)).
    exists [demo_row]. repeat split.
    + intros [H|[]]. discriminate H.
    + intros [H|[]]. discriminate H.
  - apply (proj2 (users_post_succeeds_iff started no_body t1)).
    intros H. cbv in H. discriminate H.
  - apply (proj2 (users_post_succeeds_iff started demo_again t1)).
    intros H. cbv in H. discriminate H.
Defined.

Lemma wishlist_post_succeeds_iff_witness :
  status (fst (wishlist_post with_two_items "404" france t2)) = 200
  /\ (status (fst (wishlist_post with_two_items "1.0" france t2)) = 400
      /\ snd (wishlist_post with_two_items "1.0" france t2) = with_two_items)
  /\ status (fst (wishlist_post with_two_items "1" no_body t2)) = 400
  /\ snd (wishlist_post with_two_items "1" no_body t2) = with_two_items.
Proof.
  split; [|split].
  - apply (proj1 (wishlist_post_succeeds_iff with_two_items "404" france t2)).
    exists [france_item; japan_item].
    repeat split. intros r [<-|[<-|[]]]; reflexivity.
  - apply (proj2 (wishlist_post_succeeds_iff with_two_items "1.0" france t2)).
    intros H. cbv in H. discriminate H.
  - apply (proj2 (wishlist_post_succeeds_iff with_two_items "1" no_body t2)).
    intros H. cbv in H. discriminate H.
Defined.

(** ** Writing, then listing *)

Lemma wishlist_put_then_get_witness :
  wishlist_get (snd (wishlist_put with_two_items "1" "FR" four_stars)) "1"
  = (res_json
       (JArr [item_json japan_item;
              item_json (set_rating_notes (SqlInt 4) (SqlText "spring")
                           france_item)]),
     snd (wishlist_put with_two_items "1" "FR" four_stars)).
Proof.
  exact (wishlist_put_then_get with_two_items [france_item; japan_item]
           "1" "FR" four_stars eq_refl).
Defined.

Example a_rating_written_as_text :
  fst (wishlist_get (snd (wishlist_put with_two_items "1" "FR" hundred)) "1")
  = res_json
      (JArr [item_json japan_item;
             item_json (set_rating_notes (SqlInt 100)
                          (SqlText "a round number") france_item)]).
Proof. reflexivity. Qed.

Lemma wishlist_delete_then_get_witness :
  wishlist_get (snd (wishlist_delete with_two_items "1" "FR")) "1"
  = (res_json (JArr [item_json japan_item]),
     snd (wishlist_delete with_two_items "1" "FR")).
Proof.
  exact (wishlist_delete_then_get with_two_items [france_item; japan_item]
           "1" "FR" eq_refl).
Defined.

Lemma wishlist_post_then_get_witness :
  wishlist_post started "1" france t1
  = (france_created, set_wishlist started [france_item] 1)
  /\ wishlist_get (set_wishlist started [france_item] 1) "1"
     = (res_json (JArr [item_json france_item]),
        set_wishlist started [france_item] 1).
Proof.
  split; [reflexivity|].
  destruct (wishlist_post_then_get (E := sample_engine) started
              (set_wishlist started [france_item] 1) "1" france t1
              france_created eq_refl eq_refl)
    as [row [_ [_ [_ [_ [_ [_ [_ [_ [_ [G _]]]]]]]]]]].
  exact G.
Defined.

Example a_user_id_written_as_a_real :
  wishlist (snd (wishlist_post started "2.0" france t1))
  = Some [mk_item 1 (SqlInt 2) (SqlText "FR") (SqlText "France") (SqlInt 0)
            (SqlText "") (SqlText t1)]
  /\ fst (wishlist_get (snd (wishlist_post started "2.0" france t1)) "2")
     = res_json
         (JArr [JObj [("id", JVal (JNum 1)); ("user_id", JVal (JNum 2));
                      ("country_code", JVal (JStr "FR"));
                      ("country_name", JVal (JStr "France"));
                      ("rating", JVal (JNum 0)); ("notes", JVal (JStr ""));
                      ("added_date", JVal (JStr t1))]]).
Proof. repeat split. Qed.

(** ** One user's list and the requests of others *)

Lemma wishlist_of_other_user_untouched_witness :
  fst (wishlist_get (snd (handle with_two_items t2 (PostWishlist "2" france)))
         "1")
  = fst (wishlist_get with_two_items "1").
Proof.
  apply (wishlist_of_other_user_untouched (E := sample_engine)
           with_two_items t2
           (PostWishlist "2" france) "1" 1 eq_refl).
  intros userId W. inversion W; subst. exists 2. split; [reflexivity|lia].
Defined.

(** ** Counts, ids and undoing *)

Lemma existing_item_changes_once_witness :
  fst (wishlist_put
         (run fresh_file [Startup t0; Served t1 (PostWishlist "1" france)])
         "1" "FR" four_stars)
  = res_json (JObj [("updated", JVal (JNum 1))])
  /\ fst (wishlist_delete
            (run fresh_file [Startup t0; Served t1 (PostWishlist "1" france)])
            "1" "FR")
     = res_json (JObj [("deleted", JVal (JNum 1))]).
Proof.
  apply (existing_item_changes_once
           [Startup t0; Served t1 (PostWishlist "1" france)] [france_item]
           "1" "FR" four_stars france_item);
    [reflexivity | left; reflexivity | reflexivity].
Defined.

Lemma wishlist_ids_never_reused_witness : 1 < 2.
Proof.
  apply (wishlist_ids_never_reused started
           (set_wishlist started [france_item] 1)
           (set_wishlist started [japan_item] 2)
           [Served t1 (DeleteWishlist "1" "FR")] "1" "1" france japan t1 t2
           france_created japan_created 1 2); reflexivity.
Defined.

Lemma wishlist_post_then_delete_witness :
  wishlist_delete (set_wishlist started [france_item] 1) "1" "FR"
  = (res_json (JObj [("deleted", JVal (JNum 1))]),
     {| users := users started; wishlist := Some [];
        seq_users := seq_users started; seq_wishlist := 1 |}).
Proof.
  exact (wishlist_post_then_delete started
           (set_wishlist started [france_item] 1) [] "1" "FR" france t1
           france_created eq_refl eq_refl eq_refl eq_refl).
Defined.

Example a_number_as_country_code :
  wishlist (snd (wishlist_post started "1" far_away t1))
  = Some [mk_item 1 (SqlInt 1) (SqlText "1.0e+20") (SqlText "Far away")
            (SqlInt 0) (SqlText "") (SqlText t1)]
  /\ fst (wishlist_delete (snd (wishlist_post started "1" far_away t1))
            "1" "1.0e+20")
     = res_json (JObj [("deleted", JVal (JNum 1))])
  /\ fst (wishlist_delete (snd (wishlist_post started "1" far_away t1))
            "1" "100000000000000000000")
     = res_json (JObj [("deleted", JVal (JNum 0))]).
Proof. repeat split. Qed.

(** ** The users table only grows *)

Lemma users_rows_are_kept_witness :
  exists more,
    users (run started [Served t1 (PostWishlist "1" france);
                        Served t2 (PostWishlist "1" japan)])
    = Some ([mk_user 1 demo_username demo_email (SqlText t0)] ++ more)%list.
Proof.
  exact (users_rows_are_kept started
           [Served t1 (PostWishlist "1" france);
            Served t2 (PostWishlist "1" japan)]
           [mk_user 1 demo_username demo_email (SqlText t0)] eq_refl).
Defined.

(** ** Repeating a write *)

Lemma wishlist_delete_twice_witness :
  wishlist_delete (snd (wishlist_delete with_two_items "1" "FR")) "1" "FR"
  = (res_json (JObj [("deleted", JVal (JNum 0))]),
     snd (wishlist_delete with_two_items "1" "FR")).
Proof.
  exact (wishlist_delete_twice with_two_items [france_item; japan_item]
           "1" "FR" eq_refl).
Defined.

Lemma wishlist_put_without_rating_stores_null_witness :
  wishlist (snd (wishlist_put with_two_items "1" "JP" no_body))
  = Some [france_item;
          set_rating_notes SqlNull SqlNull japan_item]
  /\ exists rows',
      wishlist (snd (wishlist_put with_two_items "1" "JP" no_body)) = Some rows'
      /\ (supplied (rating no_body) = false \/ rating no_body = JNull ->
          forall r, In r rows' -> item_is "1" "JP" r = true ->
                    w_rating r = SqlNull)
      /\ (supplied (notes no_body) = false \/ notes no_body = JNull ->
          forall r, In r rows' -> item_is "1" "JP" r = true ->
                    w_notes r = SqlNull).
Proof.
  split; [reflexivity|].
  exact (wishlist_put_without_rating_stores_null with_two_items
           [france_item; japan_item] "1" "JP" no_body eq_refl).
Defined.
